(** * Patch comparison pipeline of [examples/zed_doc_prompt]

    A shallow embedding of
    - [internal/patch_parser.py]   ([parse_file_hunks]),
    - [internal/name_extractor.py] ([extract_funcs_and_vars_from_hunk],
      [collect_funcs_vars_from_files_map]),
    - [evaluate.py]                ([score_patch_similarity]),
    together with the properties of the specification that concern them.

    Conventions of the embedding.
    - A Python [str] is a [string]; a character is a code point below 256,
      so the tables for [str.isspace], [str.splitlines] and the regular
      expression classes are the ones Python uses on U+0000..U+00FF.
    - A [dict] is a [gmap string _], a [set] is a [gset string].
    - A Python [float] is an exact rational of [Q]; the literals [0.5],
      [0.35] and [0.15] are [1/2], [7/20] and [3/20], and equality of scores
      is [Qeq]. The rational value and the binary64 value of a score can
      differ by rounding (for the components 1/3, 2/3 and 1 the model
      gives 11/20, binary64 the double just below 0.55), so that the
      statements on scores are statements on the rational model. The
      module [Binary64] evaluates the combination of the three components
      in binary64 arithmetic, to compare the two at the values the
      components take in the examples below. *)

From Stdlib Require Import Ascii String QArith Qminmax Floats Lqa.
From stdpp Require Import gmap strings list fin_maps.

Local Close Scope Q_scope.
Local Close Scope Z_scope.
Local Open Scope string_scope.
Local Open Scope nat_scope.
Local Open Scope list_scope.

(** ** Python string primitives *)

Module PyStr.

(** Code points on which [str.isspace] holds, which are also the ones that
    the pattern [\s] accepts: 9-13, 28-32, 133 and 160. *)
Definition isspace (c : ascii) : bool :=
  let n := nat_of_ascii c in
  ((9 <=? n) && (n <=? 13)) || ((28 <=? n) && (n <=? 32))
  || (n =? 133) || (n =? 160).

(** Line boundaries of [str.splitlines]: 10-13, 28-30 and 133. *)
Definition islinebreak (c : ascii) : bool :=
  let n := nat_of_ascii c in
  ((10 <=? n) && (n <=? 13)) || ((28 <=? n) && (n <=? 30)) || (n =? 133).

(** Code points accepted by the pattern [\w]. *)
Definition isword (c : ascii) : bool :=
  let n := nat_of_ascii c in
  ((48 <=? n) && (n <=? 57)) || ((65 <=? n) && (n <=? 90)) || (n =? 95)
  || ((97 <=? n) && (n <=? 122))
  || (n =? 170) || (n =? 178) || (n =? 179) || (n =? 181) || (n =? 185)
  || (n =? 186) || ((188 <=? n) && (n <=? 190))
  || ((192 <=? n) && (n <=? 214)) || ((216 <=? n) && (n <=? 246))
  || (248 <=? n).

(** The class [[A-Za-z_]]. *)
Definition isidentstart (c : ascii) : bool :=
  let n := nat_of_ascii c in
  ((65 <=? n) && (n <=? 90)) || (n =? 95) || ((97 <=? n) && (n <=? 122)).

(** Truth value of a string: [bool(s)]. *)
Definition nonempty (s : string) : bool :=
  match s with EmptyString => false | String _ _ => true end.

(** [s.startswith(p)]. *)
Fixpoint startswith (p s : string) : bool :=
  match p, s with
  | EmptyString, _ => true
  | String a p', String b s' => if Ascii.eqb a b then startswith p' s' else false
  | String _ _, EmptyString => false
  end.

(** [s.lstrip()], [s.rstrip()] and [s.strip()]. *)
Fixpoint lstrip (s : string) : string :=
  match s with
  | EmptyString => EmptyString
  | String c s' => if isspace c then lstrip s' else s
  end.

Fixpoint rstrip (s : string) : string :=
  match s with
  | EmptyString => EmptyString
  | String c s' =>
      let r := rstrip s' in
      if isspace c && negb (nonempty r) then EmptyString else String c r
  end.

Definition strip (s : string) : string := rstrip (lstrip s).

(** [s.splitlines()]: the text is cut at every line boundary, a carriage
    return followed by a line feed counts as one boundary, and no empty
    line is produced after a final boundary. *)
Definition cons_line (c : ascii) (ls : list string) : list string :=
  match ls with
  | [] => [String c EmptyString]
  | l :: ls' => String c l :: ls'
  end.

Fixpoint splitlines (s : string) : list string :=
  match s with
  | EmptyString => []
  | String c s' =>
      if islinebreak c then
        EmptyString ::
          match s' with
          | String d s'' =>
              if Ascii.eqb c "013" && Ascii.eqb d "010" then splitlines s''
              else splitlines s'
          | EmptyString => []
          end
      else cons_line c (splitlines s')
  end.

(** [sep.join(ls)]. *)
Fixpoint join (sep : string) (ls : list string) : string :=
  match ls with
  | [] => EmptyString
  | [l] => l
  | l :: ls' => l +:+ sep +:+ join sep ls'
  end.

End PyStr.

(** ** The fragment of Python's [re] that the sources use *)

Module Re.

(** Patterns are sequences of literals, single character classes, greedy
    repetitions of a class (of white space, of word characters, of any
    character but the newline), one capture group
    and the anchor [$]. The anchor [^] that opens every pattern of the
    sources pins the match to the beginning of the subject, so that
    [re.match] and [Pattern.search] both try position 0 only; it is left
    implicit. *)
Inductive regex : Type :=
| Lit (l : string)
| Cls (p : ascii -> bool)
| Star (p : ascii -> bool)
| Plus (p : ascii -> bool)
| Cat (r1 r2 : regex)
| Grp (r : regex)
| Eol.

(** [strip_prefix l s] is [Some s'] when [s = l ++ s']. *)
Fixpoint strip_prefix (l s : string) : option string :=
  match l, s with
  | EmptyString, _ => Some s
  | String a l', String b s' => if Ascii.eqb a b then strip_prefix l' s' else None
  | String _ _, EmptyString => None
  end.

(** The suffixes that a greedy [p*] may leave, in the order in which the
    backtracking matcher tries them: longest match first. *)
Fixpoint star_rests (p : ascii -> bool) (s : string) : list string :=
  match s with
  | String c s' => if p c then star_rests p s' ++ [s] else [s]
  | EmptyString => [s]
  end.

Definition plus_rests (p : ascii -> bool) (s : string) : list string :=
  match s with
  | String c s' => if p c then star_rests p s' else []
  | EmptyString => []
  end.

(** The first [n] characters of [s]. *)
Fixpoint take_str (n : nat) (s : string) : string :=
  match n, s with
  | S n', String c s' => String c (take_str n' s')
  | _, _ => EmptyString
  end.

(** What was consumed between the subject [s] and its suffix [s']. *)
Definition consumed (s s' : string) : string :=
  take_str (String.length s - String.length s') s.

(** [$] holds at the end of the subject and just before a final newline. *)
Definition at_eol (s : string) : bool :=
  match s with
  | EmptyString => true
  | String c EmptyString => Ascii.eqb c "010"
  | _ => false
  end.

(** All the ways of matching [r] at the beginning of [s], in the priority
    order of a backtracking matcher; each carries the text of the capture
    group, if it has been closed, and the suffix left to match. *)
Fixpoint run (r : regex) (g : option string) (s : string)
  : list (option string * string) :=
  match r with
  | Lit l => match strip_prefix l s with Some s' => [(g, s')] | None => [] end
  | Cls p =>
      match s with
      | String c s' => if p c then [(g, s')] else []
      | EmptyString => []
      end
  | Star p => map (pair g) (star_rests p s)
  | Plus p => map (pair g) (plus_rests p s)
  | Cat r1 r2 => flat_map (fun x => run r2 (fst x) (snd x)) (run r1 g s)
  | Grp r1 => map (fun x => (Some (consumed s (snd x)), snd x)) (run r1 g s)
  | Eol => if at_eol s then [(g, s)] else []
  end.

(** [re.match(r, s)] followed by [m.group(1)]: the capture of the first way
    of matching, [None] when there is no match. *)
Definition match_group (r : regex) (s : string) : option string :=
  match run r None s with
  | [] => None
  | (g, _) :: _ => Some (default EmptyString g)
  end.

Declare Scope re_scope.
Delimit Scope re_scope with re.
Bind Scope re_scope with regex.
Infix ">>" := Cat (at level 60, right associativity) : re_scope.

End Re.

Import Re.

Definition LF : string := String "010" EmptyString.

(** ** [internal/patch_parser.py] *)

Module PatchParser.

(** The pattern of a file header: three plus signs, white space, [b/],
    then a captured non-empty run of characters other than the newline, up
    to the end of the line. *)
Definition file_header : regex :=
  (Lit "+++" >> Plus PyStr.isspace >> Lit "b/"
   >> Grp (Plus (fun c => negb (Ascii.eqb c "010"))) >> Eol)%re.

(** The local variables of the loop of [parse_file_hunks]. *)
Record state : Type := State {
  files : gmap string (list string);
  current_file : option string;
  current_hunks : list string;
  hunk_buf : list string
}.

Definition init : state :=
  {| files := ∅; current_file := None; current_hunks := []; hunk_buf := [] |}.

(** [if hunk_buf: current_hunks.append('\n'.join(hunk_buf))] *)
Definition flush (hunks buf : list string) : list string :=
  match buf with
  | [] => hunks
  | _ :: _ => hunks ++ [PyStr.join LF buf]
  end.

(** The map after the pending section, if any, has been stored under its
    path: [files[current_file] = current_hunks]. *)
Definition store (st : state) : gmap string (list string) :=
  match current_file st with
  | Some f => <[f := flush (current_hunks st) (hunk_buf st)]> (files st)
  | None => files st
  end.

Definition is_body_line (ln : string) : bool :=
  PyStr.startswith "+" ln || PyStr.startswith "-" ln || PyStr.startswith " " ln.

(** One iteration of [for ln in lines]. *)
Definition step (st : state) (ln : string) : state :=
  match Re.match_group file_header ln with
  | Some path =>
      {| files := store st;
         current_file := Some (PyStr.strip path);
         current_hunks := [];
         hunk_buf := [] |}
  | None =>
      if PyStr.startswith "@@" ln then
        {| files := files st;
           current_file := current_file st;
           current_hunks := flush (current_hunks st) (hunk_buf st);
           hunk_buf := [ln] |}
      else if bool_decide (current_file st ≠ None) && is_body_line ln then
        {| files := files st;
           current_file := current_file st;
           current_hunks := current_hunks st;
           hunk_buf := hunk_buf st ++ [ln] |}
      else st
  end.

(** The loop, then the code under [# finalize last]. *)
Definition parse_lines (lines : list string) : gmap string (list string) :=
  store (foldl step init lines).

Definition parse_file_hunks (diff : string) : gmap string (list string) :=
  if negb (PyStr.nonempty diff) then ∅
  else parse_lines (PyStr.splitlines diff).

End PatchParser.

(** ** [internal/name_extractor.py] *)

Module NameExtractor.

(** The captured identifier: the class A-Za-z_ followed by a greedy run
    of word characters. *)
Definition ident : regex := Grp (Cls PyStr.isidentstart >> Star PyStr.isword)%re.

(** [pattern_def]: optional white space, the keyword, white space, the
    captured identifier, optional white space, an opening parenthesis. *)
Definition pattern_def : regex :=
  (Star PyStr.isspace >> Lit "def" >> Plus PyStr.isspace >> ident
   >> Star PyStr.isspace >> Lit "(")%re.

(** [pattern_class]: optional white space, the keyword, white space, the
    captured identifier, optional white space, a colon or an opening
    parenthesis. *)
Definition pattern_class : regex :=
  (Star PyStr.isspace >> Lit "class" >> Plus PyStr.isspace >> ident
   >> Star PyStr.isspace
   >> Cls (fun c => Ascii.eqb c ":" || Ascii.eqb c "("))%re.

(** [pattern_assign]: optional white space, the captured identifier,
    optional white space, an equals sign. *)
Definition pattern_assign : regex :=
  (Star PyStr.isspace >> ident >> Star PyStr.isspace >> Lit "=")%re.

(** [ln[1:] if ln.startswith(('+', '-', ' ')) else ln] *)
Definition content (ln : string) : string :=
  match ln with
  | String c s' =>
      if Ascii.eqb c "+" || Ascii.eqb c "-" || Ascii.eqb c " " then s' else ln
  | EmptyString => ln
  end.

(** One iteration of the loop over the lines of a hunk, on the pair
    [(funcs, vars)]. *)
Definition scan_line (fv : gset string * gset string) (ln : string)
  : gset string * gset string :=
  let c := content ln in
  match Re.match_group pattern_def c with
  | Some name => ({[name]} ∪ fv.1, fv.2)
  | None =>
      match Re.match_group pattern_class c with
      | Some name => ({[name]} ∪ fv.1, fv.2)
      | None =>
          match Re.match_group pattern_assign c with
          | Some name => (fv.1, {[name]} ∪ fv.2)
          | None => fv
          end
      end
  end.

Definition extract_funcs_and_vars_from_hunk (hunk : string)
  : gset string * gset string :=
  foldl scan_line (∅, ∅) (PyStr.splitlines hunk).

(** The two nested loops of [collect_funcs_vars_from_files_map], over the
    hunks of every value of the map. *)
Definition add_hunk (FV : gset string * gset string) (h : string)
  : gset string * gset string :=
  let fv := extract_funcs_and_vars_from_hunk h in
  (FV.1 ∪ fv.1, FV.2 ∪ fv.2).

Definition collect_funcs_vars_from_files_map (files_map : gmap string (list string))
  : gset string * gset string :=
  foldl (fun FV hunks => foldl add_hunk FV hunks) (∅, ∅)
        ((map_to_list files_map).*2).

End NameExtractor.

(** ** [evaluate.py]: [score_patch_similarity] *)

Module Evaluate.

Import PatchParser NameExtractor.

(** [if g_hunks and a_hunks and g_hunks == a_hunks] for
    [g_hunks = g_files.get(p, [])] and [a_hunks = a_files.get(p, [])]. *)
Definition hunks_match (g_files a_files : gmap string (list string)) (p : string) : bool :=
  let g_hunks := default [] (g_files !! p) in
  let a_hunks := default [] (a_files !! p) in
  bool_decide (g_hunks ≠ []) && bool_decide (a_hunks ≠ [])
  && bool_decide (g_hunks = a_hunks).

Definition all_paths (g_files a_files : gmap string (list string)) : gset string :=
  dom g_files ∪ dom a_files.

(** The number of iterations of [for p in all_paths] that increment
    [match_count]. *)
Definition match_count (g_files a_files : gmap string (list string)) : nat :=
  length (filter (fun p => hunks_match g_files a_files p = true)
                 (elements (all_paths g_files a_files))).

Definition of_nat (n : nat) : Q := inject_Z (Z.of_nat n).

(** The file identity score, lines 87-102; [g] and [a] are the trimmed
    texts and [g_files], [a_files] their parses. *)
Definition file_score (g a : string) (g_files a_files : gmap string (list string)) : Q :=
  if bool_decide (g_files = ∅) && bool_decide (a_files = ∅) then
    if bool_decide (PyStr.strip g = PyStr.strip a) && PyStr.nonempty g
    then 1%Q else 0%Q
  else
    let P := all_paths g_files a_files in
    if bool_decide (P = ∅) then 0%Q
    else (of_nat (match_count g_files a_files) / of_nat (size P))%Q.

(** The local function [jaccard]. *)
Definition jaccard (s1 s2 : gset string) : Q :=
  if bool_decide (s1 = ∅) && bool_decide (s2 = ∅) then 1%Q
  else if bool_decide (s1 = ∅) || bool_decide (s2 = ∅) then 0%Q
  else
    let inter := size (s1 ∩ s2) in
    let uni := size (s1 ∪ s2) in
    if bool_decide (uni ≠ 0) then (of_nat inter / of_nat uni)%Q else 0%Q.

(** [combined], line 121, from the three component scores. *)
Definition combine (file_score func_score var_score : Q) : Q :=
  ((1 # 2) * file_score + (7 # 20) * func_score + (3 # 20) * var_score)%Q.

(** [max(0.0, min(1.0, x))] *)
Definition clamp01 (x : Q) : Q := Qmax 0 (Qmin 1 x).

(** The three components as the body computes them from the trimmed
    texts. *)
Definition file_component (g a : string) : Q :=
  file_score g a (parse_file_hunks g) (parse_file_hunks a).

Definition func_component (g a : string) : Q :=
  jaccard (collect_funcs_vars_from_files_map (parse_file_hunks g)).1
          (collect_funcs_vars_from_files_map (parse_file_hunks a)).1.

Definition var_component (g a : string) : Q :=
  jaccard (collect_funcs_vars_from_files_map (parse_file_hunks g)).2
          (collect_funcs_vars_from_files_map (parse_file_hunks a)).2.

Definition score_patch_similarity (generated actual : string) : Q :=
  let g := PyStr.strip generated in
  let a := PyStr.strip actual in
  if negb (PyStr.nonempty g) && negb (PyStr.nonempty a) then 0%Q
  else
    clamp01 (combine (file_component g a) (func_component g a) (var_component g a)).

End Evaluate.

(** ** The combination in binary64 arithmetic *)

Module Binary64.

(** [0.5 * file_score + 0.35 * func_score + 0.15 * var_score] *)
Definition combine (file_score func_score var_score : float) : float :=
  (0.5 * file_score + 0.35 * func_score + 0.15 * var_score)%float.

(** [max(0.0, min(1.0, x))]: [min] and [max] return their first argument
    unless the second is strictly smaller, respectively greater. *)
Definition clamp01 (x : float) : float :=
  let m := if PrimFloat.ltb x 1%float then x else 1%float in
  if PrimFloat.ltb 0%float m then m else 0%float.

End Binary64.

(** ** Notions of the specification *)

Module Spec.

Import PatchParser NameExtractor Evaluate.

(** Every character of [s] satisfies [p]. *)
Fixpoint str_forallb (p : ascii -> bool) (s : string) : bool :=
  match s with
  | EmptyString => true
  | String c s' => p c && str_forallb p s'
  end.

(** [s] is empty or opens with a character outside [p]: a greedy run of
    [p] stops in front of it. *)
Definition stops (p : ascii -> bool) (s : string) : bool :=
  match s with
  | EmptyString => true
  | String c _ => negb (p c)
  end.

(** An identifier: a character of A-Za-z_ followed by word characters. *)
Definition is_identifier (s : string) : bool :=
  match s with
  | EmptyString => false
  | String c s' => PyStr.isidentstart c && str_forallb PyStr.isword s'
  end.

(** A line is a file header when the header pattern matches it, and is
    recognised when the loop of the parser has a branch for it. *)
Definition is_header (ln : string) : bool :=
  bool_decide (Re.match_group file_header ln ≠ None).

Definition recognised (ln : string) : bool :=
  is_header ln || PyStr.startswith "@@" ln || is_body_line ln.


Definition starts_with_header_or_body (h : string) : bool :=
  PyStr.startswith "@@" h || is_body_line h.




(** The lines of a diff cut into the lines before the first file header
    and the file sections: a header line with the lines up to the next
    header. *)
Fixpoint file_sections (lines : list string)
  : list string * list (string * list string) :=
  match lines with
  | [] => ([], [])
  | ln :: rest =>
      let (pre, secs) := file_sections rest in
      if is_header ln then ([], (ln, pre) :: secs) else (ln :: pre, secs)
  end.

Definition sections_of (diff : string) : list (string * list string) :=
  (file_sections (PyStr.splitlines diff)).2.

(** The path that the header of a section names. *)
Definition section_path (sec : string * list string) : string :=
  PyStr.strip (default EmptyString (Re.match_group file_header sec.1)).

(** The lines of the body of a section cut into blocks: the body lines
    that come before the first hunk header, and one block for every hunk
    header, made of the header line and of the body lines that follow it up
    to the next hunk header. Lines that are neither are left out. *)
Fixpoint hunk_blocks (body : list string) : list string * list (list string) :=
  match body with
  | [] => ([], [])
  | l :: rest =>
      let (pre, blocks) := hunk_blocks rest in
      if PyStr.startswith "@@" l then ([], (l :: pre) :: blocks)
      else if is_body_line l then (l :: pre, blocks)
      else (pre, blocks)
  end.

(** The hunk sequence of a section: the text of each block, its lines
    joined by newlines, in the order of the section; the body lines before
    the first hunk header, if any, come first as a block of their own. *)
Definition section_hunks (sec : string * list string) : list string :=
  let (pre, blocks) := hunk_blocks sec.2 in
  match pre with
  | [] => []
  | _ :: _ => [PyStr.join LF pre]
  end ++ (PyStr.join LF <$> blocks).

Definition sections_for (p : string) (secs : list (string * list string))
  : list (string * list string) :=
  filter (fun sec => section_path sec = p) secs.

(** The hunks of all the sections of [p] in encounter order, and the hunks
    of its last section. *)
Definition hunks_of_all_sections (p : string) (secs : list (string * list string))
  : list string :=
  concat (map section_hunks (sections_for p secs)).

Definition hunks_of_last_section (p : string) (secs : list (string * list string))
  : option (list string) :=
  section_hunks <$> last (sections_for p secs).

(** Two criteria for counting a path in the file identity score: the path
    is a key of both maps with equal hunk sequences; and the same with
    sequences that are not empty. *)
Definition same_hunks (g_files a_files : gmap string (list string)) (p : string) : bool :=
  match g_files !! p, a_files !! p with
  | Some g_hunks, Some a_hunks => bool_decide (g_hunks = a_hunks)
  | _, _ => false
  end.

Definition same_nonempty_hunks (g_files a_files : gmap string (list string)) (p : string)
  : bool :=
  match g_files !! p, a_files !! p with
  | Some (h :: g_hunks), Some a_hunks => bool_decide (h :: g_hunks = a_hunks)
  | _, _ => false
  end.

(** [matches / |P|] for a criterion, [0.0] when [P] is empty. *)
Definition ratio_score (crit : string -> bool) (P : gset string) : Q :=
  if decide (P = ∅) then 0%Q
  else (of_nat (length (filter (fun p => crit p = true) (elements P)))
        / of_nat (size P))%Q.

(** The share of a component in a score against nothing: its weight when
    the set of names is empty, nothing otherwise. *)
Definition weight_if_empty (w : Q) (s : gset string) : Q :=
  if decide (s = ∅) then w else 0%Q.

End Spec.

(** ** Sample diffs *)

Module Samples.

(** No file section at all. *)
Definition plain_text : string := "hello".

(** One file with one hunk that defines a function and assigns a variable. *)
Definition one_file : string :=
  "+++ b/foo.py" +:+ LF +:+ "@@ -1,2 +1,3 @@" +:+ LF +:+ "+def bar():"
  +:+ LF +:+ "+    x = 1".

(** The same path under two headers. *)
Definition twice : string :=
  "+++ b/f" +:+ LF +:+ "@@ -1 +1 @@" +:+ LF +:+ "+a" +:+ LF
  +:+ "+++ b/f" +:+ LF +:+ "@@ -9 +9 @@" +:+ LF +:+ "+b".

(** A file header followed by no hunk. *)
Definition header_only : string := "+++ b/f".


(** A well-formed section, then a file header followed by no hunk. *)
Definition trailing_header : string :=
  "+++ b/a" +:+ LF +:+ "@@ -1 +1 @@" +:+ LF +:+ "+x" +:+ LF +:+ "+++ b/b".

End Samples.

(** ** [evaluate.py]: the aggregate of [evaluate_prompt_program] *)

Module Run.

(** [sum(similarity_scores)] *)
Definition sum (scores : list Q) : Q := foldl Qplus 0%Q scores.

(** [combined = sum(similarity_scores) / max(len(similarity_scores), 1)],
    the [combined_score] of the metrics of a run. *)
Definition combined_score (similarity_scores : list Q) : Q :=
  (sum similarity_scores / Evaluate.of_nat (Nat.max (length similarity_scores) 1))%Q.

End Run.

(** ** [shinka/llm/ollama_utils.py] *)

Module OllamaUtils.

(** [c.lower()] on the code points below 256: the letters A-Z and the
    accented capitals 192-214 and 216-222 move up by 32. *)
Definition lower_char (c : ascii) : ascii :=
  let n := nat_of_ascii c in
  if ((65 <=? n) && (n <=? 90)) || ((192 <=? n) && (n <=? 214))
     || ((216 <=? n) && (n <=? 222))
  then ascii_of_nat (n + 32) else c.

Fixpoint lower (s : string) : string :=
  match s with
  | EmptyString => EmptyString
  | String c s' => String (lower_char c) (lower s')
  end.

(** [s[n:]] *)
Fixpoint drop_str (n : nat) (s : string) : string :=
  match n, s with
  | S n', String _ s' => drop_str n' s'
  | _, _ => s
  end.

(** [s.lstrip(chars)] for the characters that satisfy [chars]. *)
Fixpoint lstrip_chars (chars : ascii -> bool) (s : string) : string :=
  match s with
  | EmptyString => EmptyString
  | String c s' => if chars c then lstrip_chars chars s' else s
  end.

(** [model_name] is [None] for Python's [None]; a value that is not a
    string is not in the type. *)
Definition is_ollama_model_name (model_name : option string) : bool :=
  match model_name with
  | None => false
  | Some name =>
      if negb (PyStr.nonempty name) then false
      else PyStr.startswith "ollama" (lower name)
  end.

Definition prefixes : list string := ["ollama://"; "ollama:"; "ollama/"; "ollama-"].

(** The characters of ["/: "]. *)
Definition separator (c : ascii) : bool :=
  Ascii.eqb c "/" || Ascii.eqb c ":" || Ascii.eqb c " ".

(** The loop [for prefix in prefixes], which returns at the first prefix
    that the name starts with, and the [return model_name] after it. *)
Fixpoint strip_first (prefixes : list string) (model_name : string) : string :=
  match prefixes with
  | [] => model_name
  | prefix :: rest =>
      if PyStr.startswith prefix model_name then
        let trimmed := drop_str (String.length prefix) model_name in
        lstrip_chars separator trimmed
      else strip_first rest model_name
  end.

Definition normalize_ollama_model_name (model_name : string) : string :=
  if negb (PyStr.nonempty model_name) then model_name
  else strip_first prefixes model_name.

End OllamaUtils.

(** ** [internal/llm_helper.py]: [ask_llm_to_select_files] *)

Module LlmHelper.

(** The values that [json.loads] returns; numbers are kept as rationals,
    their value is never inspected. *)
Inductive json : Type :=
| JNull
| JBool (b : bool)
| JNum (n : Q)
| JStr (s : string)
| JArr (items : list json)
| JObj (fields : list (string * json)).

(** [s.find(c)] and [s.rfind(c)] for a single character; [None] is -1. *)
Fixpoint find_char (c : ascii) (s : string) : option nat :=
  match s with
  | EmptyString => None
  | String d s' => if Ascii.eqb d c then Some 0 else S <$> find_char c s'
  end.

Fixpoint rfind_char (c : ascii) (s : string) : option nat :=
  match s with
  | EmptyString => None
  | String d s' =>
      match rfind_char c s' with
      | Some i => Some (S i)
      | None => if Ascii.eqb d c then Some 0 else None
      end
  end.

(** [s[i:j]] *)
Definition slice (i j : nat) (s : string) : string :=
  Re.take_str (j - i) (OllamaUtils.drop_str i s).

(** [[p for p in picks if p in all_paths]]: [all_paths] is a list of
    strings, so that only a pick that is a string can be found in it. *)
Definition keep_known (all_paths : list string) (picks : list json) : list string :=
  flat_map (fun p => match p with
                     | JStr s => if bool_decide (s ∈ all_paths) then [s] else []
                     | _ => []
                     end) picks.

Section Select.

(** [json.loads], with [None] when it raises. *)
Variable json_loads : string -> option json.

(** The value bound to [picks], or [None] on the paths that return
    [all_paths] from within the handlers. *)
Definition parse_picks (content : string) : option json :=
  match json_loads content with
  | Some picks => Some picks
  | None =>
      match find_char "[" content, rfind_char "]" content with
      | Some start, Some end_ =>
          if end_ <=? start then None
          else json_loads (slice start (S end_) content)
      | _, _ => None
      end
  end.

(** The function from the reply on: [reply] is
    [getattr(res, "content", "")], [None] standing for Python's [None]. *)
Definition ask_llm_to_select_files (reply : option string) (all_paths : list string)
  : list string :=
  let content := PyStr.strip (default EmptyString reply) in
  match parse_picks content with
  | Some (JArr picks) => keep_known all_paths picks
  | _ => all_paths
  end.

End Select.

End LlmHelper.

(** ** Further notions *)

Module Notions.

Import PatchParser NameExtractor Spec.

(** A line without any line boundary. *)
Definition unbroken (l : string) : bool :=
  str_forallb (fun c => negb (PyStr.islinebreak c)) l.

(** A hunk text put together from lines that satisfy [good], and the
    states of the parser all of whose hunks are. *)
Definition joined_from (good : string -> Prop) (h : string) : Prop :=
  exists ls, ls <> [] /\ Forall good ls /\ h = PyStr.join LF ls.

Definition state_from (good : string -> Prop) (st : state) : Prop :=
  map_Forall (fun _ hs => Forall (joined_from good) hs) (files st)
  /\ Forall (joined_from good) (current_hunks st)
  /\ Forall good (hunk_buf st).

(** The lines of a well-formed hunk: a hunk header, then body lines none of
    which is a file header. *)
Definition well_formed_hunk (hk : list string) : Prop :=
  exists a body,
    hk = a :: body /\ PyStr.startswith "@@" a = true
    /\ Forall (fun l => is_body_line l = true /\ is_header l = false) body.

(** A pattern without capture group. *)
Fixpoint grp_free (r : regex) : bool :=
  match r with
  | Grp _ => false
  | Cat r1 r2 => grp_free r1 && grp_free r2
  | _ => true
  end.

(** A character that ends a token: neither white space nor a word
    character; and a text that is empty or opens with such a character. *)
Definition delimiter (c : ascii) : bool :=
  negb (PyStr.isspace c) && negb (PyStr.isword c).

Definition opens_with_delimiter (s : string) : bool :=
  match s with
  | EmptyString => true
  | String c _ => delimiter c
  end.

(** A text that is empty or opens with a character that is neither white
    space nor of the class A-Za-z_. *)
Definition opens_without_name (s : string) : bool :=
  match s with
  | EmptyString => true
  | String c _ => negb (PyStr.isspace c) && negb (PyStr.isidentstart c)
  end.

End Notions.

(** * Properties *)

Import PatchParser NameExtractor Evaluate Spec.

#[local] Arguments Ascii.eqb : simpl never.
#[local] Arguments PyStr.isspace : simpl never.
#[local] Arguments PyStr.isword : simpl never.
#[local] Arguments PyStr.isidentstart : simpl never.
#[local] Arguments PyStr.islinebreak : simpl never.

(** ** Strings *)

Section Strings.

Lemma string_ind2 (P : string -> Prop) :
  P EmptyString ->
  (forall c, P (String c EmptyString)) ->
  (forall c d s, P s -> P (String d s) -> P (String c (String d s))) ->
  forall s, P s.
Proof.
  intros H0 H1 H2 s.
  assert (H : P s /\ forall c, P (String c s)).
  { induction s as [|d s [IH1 IH2]]; split; auto. }
  apply H.
Qed.

Lemma lstrip_head (s : string) :
  PyStr.lstrip s = EmptyString \/
  exists c t, PyStr.lstrip s = String c t /\ PyStr.isspace c = false.
Proof.
  induction s as [|c s IH]; simpl; [now left|].
  destruct (PyStr.isspace c) eqn:E; [exact IH|].
  right. exists c, s. now split.
Qed.

Lemma rstrip_idem (s : string) : PyStr.rstrip (PyStr.rstrip s) = PyStr.rstrip s.
Proof.
  induction s as [|c s IH]; simpl; [reflexivity|].
  destruct (PyStr.isspace c && negb (PyStr.nonempty (PyStr.rstrip s))) eqn:E;
    simpl; [reflexivity|].
  now rewrite IH, E.
Qed.

Lemma strip_idem (s : string) : PyStr.strip (PyStr.strip s) = PyStr.strip s.
Proof.
  unfold PyStr.strip.
  destruct (lstrip_head s) as [->|(c & t & -> & Hc)]; [reflexivity|].
  simpl. rewrite Hc. simpl. rewrite Hc. simpl.
  now rewrite rstrip_idem, Hc.
Qed.

Lemma nonempty_false (s : string) : PyStr.nonempty s = false <-> s = EmptyString.
Proof. destruct s; simpl; split; congruence. Qed.

Lemma nonempty_true (s : string) : PyStr.nonempty s = true <-> s <> EmptyString.
Proof. destruct s; simpl; split; congruence. Qed.


(** Every line of a text inherits a property that holds of all its
    characters. *)
Lemma cons_line_forall (p : ascii -> bool) (c : ascii) (ls : list string) :
  p c = true ->
  Forall (fun l => str_forallb p l = true) ls ->
  Forall (fun l => str_forallb p l = true) (PyStr.cons_line c ls).
Proof.
  intros Hc [|l ls' Hl Hls]; simpl.
  - constructor; [simpl; now rewrite Hc|constructor].
  - constructor; [simpl; now rewrite Hc, Hl|exact Hls].
Qed.

Lemma splitlines_forall (p : ascii -> bool) (s : string) :
  str_forallb p s = true ->
  Forall (fun l => str_forallb p l = true) (PyStr.splitlines s).
Proof.
  induction s as [|c|c d s IH1 IH2] using string_ind2.
  - constructor.
  - simpl. rewrite andb_true_r. intros Hc.
    destruct (PyStr.islinebreak c); repeat constructor. simpl. now rewrite Hc.
  - intros H. change (p c && str_forallb p (String d s) = true) in H.
    apply andb_true_iff in H as [Hc Hds].
    assert (Hs : str_forallb p s = true).
    { simpl in Hds. now apply andb_true_iff in Hds as [_ ?]. }
    change (PyStr.splitlines (String c (String d s))) with
      (if PyStr.islinebreak c
       then EmptyString ::
              (if Ascii.eqb c "013" && Ascii.eqb d "010"
               then PyStr.splitlines s else PyStr.splitlines (String d s))
       else PyStr.cons_line c (PyStr.splitlines (String d s))).
    destruct (PyStr.islinebreak c).
    + constructor; [reflexivity|].
      destruct (Ascii.eqb c "013" && Ascii.eqb d "010"); auto.
    + apply cons_line_forall; auto.
Qed.

End Strings.

(** ** The parser *)

Section Parser.

Lemma match_group_header_plus (ln : string) :
  PyStr.startswith "+" ln = false -> Re.match_group file_header ln = None.
Proof.
  destruct ln as [|c s]; [reflexivity|].
  unfold Re.match_group, file_header. simpl.
  destruct (Ascii.eqb "+" c); [discriminate|reflexivity].
Qed.

Lemma step_unrecognised (st : state) (ln : string) :
  recognised ln = false -> step st ln = st.
Proof.
  unfold recognised, is_header. intros H.
  apply orb_false_iff in H as [H Hb]. apply orb_false_iff in H as [Hh Ha].
  apply bool_decide_eq_false in Hh.
  unfold step. destruct (Re.match_group file_header ln); [now destruct Hh|].
  rewrite Ha, Hb, andb_false_r. reflexivity.
Qed.

Lemma foldl_step_recognised (lines : list string) (st : state) :
  foldl step st (filter (fun ln => recognised ln = true) lines) = foldl step st lines.
Proof.
  revert st; induction lines as [|ln lines IH]; intros st; [reflexivity|].
  rewrite filter_cons. destruct (decide (recognised ln = true)) as [E|E]; simpl.
  - apply IH.
  - apply not_true_is_false in E. rewrite (step_unrecognised st ln E). apply IH.
Qed.

Lemma isspace_first (c : ascii) (s p : string) :
  PyStr.isspace c = true -> p = "+" \/ p = "@@" ->
  PyStr.startswith p (String c s) = false.
Proof.
  intros Hc [-> | ->]; simpl.
  - destruct (Ascii.eqb_spec "+" c) as [<-|]; [discriminate Hc|reflexivity].
  - destruct (Ascii.eqb_spec "@" c) as [<-|]; [discriminate Hc|reflexivity].
Qed.

Lemma step_space_line (st : state) (ln : string) :
  current_file st = None -> str_forallb PyStr.isspace ln = true -> step st ln = st.
Proof.
  intros Hf Hln. unfold step.
  assert (Hp : PyStr.startswith "+" ln = false /\ PyStr.startswith "@@" ln = false).
  { destruct ln as [|c s]; [now split|].
    simpl in Hln. apply andb_true_iff in Hln as [Hc _].
    split; apply isspace_first; auto. }
  destruct Hp as [Hp Ha].
  rewrite (match_group_header_plus ln Hp), Ha, Hf. reflexivity.
Qed.

Lemma foldl_step_space_lines (lines : list string) :
  Forall (fun l => str_forallb PyStr.isspace l = true) lines ->
  foldl step init lines = init.
Proof.
  induction lines as [|ln lines IH] using rev_ind; intros H; [reflexivity|].
  apply Forall_app in H as [H1 H2]. rewrite foldl_snoc, (IH H1).
  apply step_space_line; [reflexivity|]. now inversion H2.
Qed.

Lemma parse_file_hunks_lines (d : string) :
  parse_file_hunks d = parse_lines (PyStr.splitlines d).
Proof. now destruct d. Qed.

(** *** Every hunk but the first of a file opens with a hunk header *)








(** *** Sections: a later section of a path replaces an earlier one *)

Lemma is_header_step (st : state) (h : string) :
  is_header h = true ->
  step st h = {| files := store st;
                 current_file := Some (section_path (h, []));
                 current_hunks := [];
                 hunk_buf := [] |}.
Proof.
  unfold is_header, step, section_path. intros H. apply bool_decide_eq_true in H.
  simpl. destruct (Re.match_group file_header h); [reflexivity|now destruct H].
Qed.

Lemma body_step_frame (st : state) (ln : string) :
  is_header ln = false ->
  files (step st ln) = files st /\ current_file (step st ln) = current_file st.
Proof.
  unfold is_header, step. intros H. apply bool_decide_eq_false in H.
  destruct (Re.match_group file_header ln); [destruct H; congruence|].
  destruct (PyStr.startswith "@@" ln); [now split|].
  now destruct (bool_decide (current_file st ≠ None) && is_body_line ln).
Qed.

Lemma body_frame (body : list string) (st : state) :
  Forall (fun ln => is_header ln = false) body ->
  files (foldl step st body) = files st
  /\ current_file (foldl step st body) = current_file st.
Proof.
  revert st; induction body as [|ln body IH]; intros st H; [now split|].
  inversion H as [|? ? Hln Hbody]; subst. simpl.
  destruct (IH (step st ln) Hbody) as [-> ->]. now apply body_step_frame.
Qed.

Lemma flush_cons (hunks : list string) (l : string) (ls : list string) :
  flush hunks (l :: ls) = hunks ++ [PyStr.join LF (l :: ls)].
Proof. reflexivity. Qed.

(** What the loop has collected at the end of the body of a section: the
    blocks of the body, the first of them continuing the buffer. *)
Lemma body_flush (body : list string) (st : state) :
  current_file st <> None ->
  Forall (fun ln => is_header ln = false) body ->
  flush (current_hunks (foldl step st body)) (hunk_buf (foldl step st body))
  = flush (current_hunks st) (hunk_buf st ++ (hunk_blocks body).1)
    ++ (PyStr.join LF <$> (hunk_blocks body).2).
Proof.
  revert st; induction body as [|l body IH]; intros st Hf H.
  - simpl. now rewrite !app_nil_r.
  - inversion H as [|? ? Hl Hbody]; subst. cbn [foldl hunk_blocks].
    destruct (hunk_blocks body) as [pre blocks] eqn:E.
    assert (Hstep : forall st', current_file st' <> None ->
      flush (current_hunks (foldl step st' body)) (hunk_buf (foldl step st' body))
      = flush (current_hunks st') (hunk_buf st' ++ pre)
        ++ (PyStr.join LF <$> blocks)).
    { intros st' Hf'. exact (IH st' Hf' Hbody). }
    unfold is_header in Hl. apply bool_decide_eq_false in Hl.
    unfold step. destruct (Re.match_group file_header l); [destruct Hl; congruence|].
    destruct (PyStr.startswith "@@" l).
    + rewrite Hstep by exact Hf. cbn [current_hunks hunk_buf fst snd app].
      rewrite flush_cons, app_nil_r, fmap_cons, <- app_assoc. reflexivity.
    + rewrite (bool_decide_eq_true_2 _ Hf). cbn [andb].
      destruct (is_body_line l).
      * rewrite Hstep by exact Hf. cbn [current_hunks hunk_buf fst snd].
        now rewrite <- app_assoc.
      * now rewrite Hstep.
Qed.

Lemma section_store (h : string) (body : list string) (st : state) :
  is_header h = true ->
  Forall (fun ln => is_header ln = false) body ->
  store (foldl step st (h :: body))
  = <[section_path (h, body) := section_hunks (h, body)]> (store st).
Proof.
  intros Hh Hbody. cbn [foldl]. unfold store at 1.
  destruct (body_frame body (step st h) Hbody) as [-> ->].
  rewrite body_flush; [|rewrite (is_header_step st h Hh); discriminate|exact Hbody].
  rewrite (is_header_step st h Hh). cbn [files current_file current_hunks hunk_buf app].
  unfold section_hunks. cbn [snd].
  destruct (hunk_blocks body) as [[|l pre] blocks]; reflexivity.
Qed.

Lemma file_sections_pre (lines : list string) :
  Forall (fun ln => is_header ln = false) (file_sections lines).1.
Proof.
  induction lines as [|ln lines IH]; simpl; [constructor|].
  destruct (file_sections lines) as [pre secs].
  destruct (is_header ln) eqn:E; simpl; [constructor|now constructor].
Qed.

Lemma store_sections (lines : list string) (st : state) :
  store (foldl step st lines)
  = foldl (fun m sec => <[section_path sec := section_hunks sec]> m)
          (store (foldl step st (file_sections lines).1))
          (file_sections lines).2.
Proof.
  revert st; induction lines as [|ln lines IH]; intros st; [reflexivity|].
  pose proof (file_sections_pre lines) as Hpre.
  change (foldl step st (ln :: lines)) with (foldl step (step st ln) lines).
  rewrite IH. simpl.
  destruct (file_sections lines) as [pre secs]. simpl in *.
  destruct (is_header ln) eqn:E; simpl; [|reflexivity].
  f_equal. exact (section_store ln pre st E Hpre).
Qed.

Lemma store_preamble (pre : list string) :
  Forall (fun ln => is_header ln = false) pre -> store (foldl step init pre) = ∅.
Proof.
  intros H. unfold store. now destruct (body_frame pre init H) as [-> ->].
Qed.

Lemma lookup_sections (p : string) (secs : list (string * list string)) :
  foldl (fun m sec => <[section_path sec := section_hunks sec]> m)
        (∅ : gmap string (list string)) secs !! p
  = hunks_of_last_section p secs.
Proof.
  unfold hunks_of_last_section, sections_for.
  induction secs as [|sec secs IH] using rev_ind; [apply lookup_empty|].
  rewrite foldl_snoc, filter_app, filter_cons, filter_nil.
  destruct (decide (section_path sec = p)) as [->|Hne].
  - now rewrite lookup_insert_eq, last_snoc.
  - rewrite lookup_insert_ne by exact Hne. now rewrite app_nil_r.
Qed.

End Parser.

(** ** The matcher *)

Section Matcher.

Lemma space_not_word (c : ascii) : PyStr.isspace c = true -> PyStr.isword c = false.
Proof. destruct c as [[] [] [] [] [] [] [] []]; vm_compute; congruence. Qed.

Lemma identstart_word (c : ascii) : PyStr.isidentstart c = true -> PyStr.isword c = true.
Proof. destruct c as [[] [] [] [] [] [] [] []]; vm_compute; congruence. Qed.

Lemma word_not_space (c : ascii) : PyStr.isword c = true -> PyStr.isspace c = false.
Proof.
  intros H. destruct (PyStr.isspace c) eqn:E; [|reflexivity].
  apply space_not_word in E. congruence.
Qed.

Lemma append_nil (b : string) : EmptyString +:+ b = b.
Proof. reflexivity. Qed.

Lemma append_cons (c : ascii) (a b : string) : String c a +:+ b = String c (a +:+ b).
Proof. reflexivity. Qed.

Lemma length_append (a b : string) :
  String.length (a +:+ b) = String.length a + String.length b.
Proof.
  induction a as [|x a IH]; [reflexivity|].
  rewrite append_cons. simpl. now rewrite IH.
Qed.

Lemma consumed_app (a b : string) : Re.consumed (a +:+ b) b = a.
Proof.
  unfold Re.consumed. rewrite length_append.
  replace (String.length a + String.length b - String.length b) with (String.length a) by lia.
  induction a as [|x a IH]; [now destruct b|].
  rewrite append_cons. simpl. now rewrite IH.
Qed.

Lemma run_lit_cat (l : string) (R : regex) (g : option string) (s : string) :
  Re.run (Lit l >> R) g s
  = match Re.strip_prefix l s with Some s' => Re.run R g s' | None => [] end.
Proof.
  simpl. destruct (Re.strip_prefix l s); simpl; [apply app_nil_r|reflexivity].
Qed.

Lemma run_cls_cat (p : ascii -> bool) (R : regex) (g : option string) (s : string) :
  Re.run (Cls p >> R) g s
  = match s with
    | String c s' => if p c then Re.run R g s' else []
    | EmptyString => []
    end.
Proof.
  simpl. destruct s as [|c s]; [reflexivity|].
  destruct (p c); simpl; [apply app_nil_r|reflexivity].
Qed.

Lemma run_star_cat_stop (p : ascii -> bool) (R : regex) (g : option string) (s : string) :
  stops p s = true -> Re.run (Star p >> R) g s = Re.run R g s.
Proof.
  intros H. simpl. destruct s as [|c s]; simpl; [apply app_nil_r|].
  simpl in H. apply negb_true_iff in H. rewrite H. simpl. apply app_nil_r.
Qed.

Lemma run_star_cat_cons (p : ascii -> bool) (R : regex) (g : option string)
    (c : ascii) (s : string) :
  p c = true ->
  Re.run (Star p >> R) g (String c s)
  = Re.run (Star p >> R) g s ++ Re.run R g (String c s).
Proof.
  intros H. simpl. rewrite H, map_app, flat_map_app. simpl. now rewrite app_nil_r.
Qed.

Lemma run_plus_cat (p : ascii -> bool) (R : regex) (g : option string) (s : string) :
  Re.run (Plus p >> R) g s
  = match s with
    | String c s' => if p c then Re.run (Star p >> R) g s' else []
    | EmptyString => []
    end.
Proof.
  destruct s as [|c s]; [reflexivity|].
  cbn [Re.run Re.plus_rests]. destruct (p c); reflexivity.
Qed.

Lemma run_grp_cat (r R : regex) (g : option string) (s : string) :
  Re.run (Grp r >> R) g s
  = flat_map (fun x => Re.run R (Some (Re.consumed s x.2)) x.2) (Re.run r g s).
Proof.
  cbn [Re.run]. induction (Re.run r g s) as [|x l IH]; [reflexivity|].
  cbn [map flat_map fst snd]. now rewrite IH.
Qed.

(** A greedy run of [p] over [w] in front of a text that stops it: the
    first alternative consumes all of [w]. *)
Lemma run_star_cat_head (p : ascii -> bool) (R : regex) (g : option string)
    (w x : string) (y : option string * string) (tl : list (option string * string)) :
  str_forallb p w = true -> stops p x = true ->
  Re.run R g x = y :: tl ->
  exists tl', Re.run (Star p >> R) g (w +:+ x) = y :: tl'.
Proof.
  intros Hw Hx Hy. induction w as [|c w IH].
  - exists tl. rewrite append_nil. now rewrite run_star_cat_stop.
  - simpl in Hw. apply andb_true_iff in Hw as [Hc Hw].
    destruct (IH Hw) as [tl' E].
    rewrite append_cons, run_star_cat_cons by exact Hc. rewrite E. eauto.
Qed.

(** ... and when the rest of the pattern fails there and on every text that
    opens with a character of [p], the whole pattern fails. *)
Lemma run_star_cat_nil (p : ascii -> bool) (R : regex) (g : option string)
    (w x : string) :
  (forall c s, p c = true -> Re.run R g (String c s) = []) ->
  str_forallb p w = true -> stops p x = true ->
  Re.run R g x = [] ->
  Re.run (Star p >> R) g (w +:+ x) = [].
Proof.
  intros HR Hw Hx Hnil. induction w as [|c w IH].
  - rewrite append_nil. now rewrite run_star_cat_stop.
  - simpl in Hw. apply andb_true_iff in Hw as [Hc Hw].
    rewrite append_cons, run_star_cat_cons by exact Hc. rewrite (IH Hw). simpl.
    now apply HR.
Qed.

(** The identifier pattern captures a whole identifier when the text goes
    on with something that is not a word character. *)
Lemma run_ident_cat_head (R : regex) (g : option string) (id x : string)
    (y : option string * string) (tl : list (option string * string)) :
  is_identifier id = true -> stops PyStr.isword x = true ->
  Re.run R (Some id) x = y :: tl ->
  exists tl', Re.run (ident >> R) g (id +:+ x) = y :: tl'.
Proof.
  intros Hid Hx Hy. destruct id as [|c w]; [discriminate|].
  simpl in Hid. apply andb_true_iff in Hid as [Hc Hw].
  assert (Hin : exists tl0,
    Re.run (Cls PyStr.isidentstart >> Star PyStr.isword) g (String c (w +:+ x))
    = (g, x) :: tl0).
  { rewrite run_cls_cat, Hc. cbn [Re.run].
    clear Hy Hc. induction w as [|d w IH].
    - rewrite append_nil. destruct x as [|e x]; simpl; [eauto|].
      simpl in Hx. apply negb_true_iff in Hx. rewrite Hx. simpl. eauto.
    - simpl in Hw. apply andb_true_iff in Hw as [Hd Hw].
      destruct (IH Hw) as [tl0 E]. rewrite append_cons. simpl. rewrite Hd.
      rewrite map_app, E. simpl. eauto. }
  destruct Hin as [tl0 E].
  rewrite append_cons.
  unfold ident. rewrite run_grp_cat, E. cbn [map flat_map fst snd].
  rewrite <- append_cons, consumed_app, Hy. simpl. eauto.
Qed.

Lemma identifier_word (id : string) :
  is_identifier id = true -> str_forallb PyStr.isword id = true.
Proof.
  destruct id as [|c w]; [discriminate|]. simpl. intros H.
  apply andb_true_iff in H as [Hc Hw]. now rewrite (identstart_word c Hc), Hw.
Qed.

Lemma stops_space_identifier (id x : string) :
  is_identifier id = true -> stops PyStr.isspace (id +:+ x) = true.
Proof.
  destruct id as [|c w]; [discriminate|]. simpl. intros H.
  apply andb_true_iff in H as [Hc _].
  now rewrite (word_not_space c (identstart_word c Hc)).
Qed.

(** The tail of a line that compares: white space, then two equals signs. *)
Lemma stops_word_comparison (ws rest : string) :
  str_forallb PyStr.isspace ws = true ->
  stops PyStr.isword (ws +:+ "==" +:+ rest) = true.
Proof.
  destruct ws as [|c ws]; [reflexivity|]. simpl. intros H.
  apply andb_true_iff in H as [Hc _]. now rewrite (space_not_word c Hc).
Qed.

Lemma strip_prefix_word (l w z x : string) :
  str_forallb PyStr.isword l = true -> str_forallb PyStr.isword w = true ->
  stops PyStr.isword z = true ->
  Re.strip_prefix l (w +:+ z) = Some x ->
  exists w', str_forallb PyStr.isword w' = true /\ x = w' +:+ z.
Proof.
  revert w; induction l as [|a l IH]; intros w Hl Hw Hz E.
  - simpl in E. injection E as <-. eauto.
  - simpl in Hl. apply andb_true_iff in Hl as [Ha Hl].
    destruct w as [|b w].
    + rewrite append_nil in E. destruct z as [|b z]; [discriminate|].
      simpl in E, Hz. destruct (Ascii.eqb_spec a b) as [<-|]; [|discriminate].
      rewrite Ha in Hz. discriminate.
    + rewrite append_cons in E. simpl in E, Hw.
      apply andb_true_iff in Hw as [_ Hw].
      destruct (Ascii.eqb a b); [|discriminate]. now apply (IH w).
Qed.

Lemma run_ident_cat_nil (R : regex) (g : option string) (c : ascii) (s : string) :
  PyStr.isidentstart c = false -> Re.run (ident >> R) g (String c s) = [].
Proof. intros H. unfold ident. now rewrite run_grp_cat, run_cls_cat, H. Qed.

Lemma space_not_identstart (c : ascii) :
  PyStr.isspace c = true -> PyStr.isidentstart c = false.
Proof.
  intros H. destruct (PyStr.isidentstart c) eqn:E; [|reflexivity].
  apply identstart_word in E. apply space_not_word in H. congruence.
Qed.

(** After a keyword, the patterns of a definition want white space and an
    identifier; a comparison offers neither. *)
Lemma run_after_keyword_nil (R : regex) (g : option string) (w ws rest : string) :
  str_forallb PyStr.isword w = true -> str_forallb PyStr.isspace ws = true ->
  Re.run (Plus PyStr.isspace >> ident >> R) g (w +:+ ws +:+ "==" +:+ rest) = [].
Proof.
  intros Hw Hws. rewrite run_plus_cat. destruct w as [|b w].
  - rewrite append_nil. destruct ws as [|c ws]; [reflexivity|].
    rewrite append_cons. simpl in Hws. apply andb_true_iff in Hws as [Hc Hws].
    rewrite Hc. apply run_star_cat_nil; [|exact Hws|reflexivity|].
    + intros c' s' Hc'. apply run_ident_cat_nil. now apply space_not_identstart.
    + now apply run_ident_cat_nil.
  - rewrite append_cons. simpl in Hw. apply andb_true_iff in Hw as [Hb _].
    now rewrite (word_not_space b Hb).
Qed.

Lemma run_keyword_nil (kw : string) (R : regex) (ws id ws' rest : string) :
  kw <> EmptyString -> str_forallb PyStr.isword kw = true ->
  str_forallb PyStr.isspace ws = true -> is_identifier id = true ->
  str_forallb PyStr.isspace ws' = true ->
  Re.run (Star PyStr.isspace >> Lit kw >> Plus PyStr.isspace >> ident >> R) None
         (ws +:+ id +:+ ws' +:+ "==" +:+ rest) = [].
Proof.
  intros Hne Hkw Hws Hid Hws'.
  apply run_star_cat_nil; auto using stops_space_identifier.
  - intros c s Hc. rewrite run_lit_cat. destruct kw as [|k kw]; [congruence|].
    simpl in Hkw. apply andb_true_iff in Hkw as [Hk _]. simpl.
    destruct (Ascii.eqb_spec k c) as [<-|]; [|reflexivity].
    rewrite (word_not_space k Hk) in Hc. discriminate.
  - rewrite run_lit_cat.
    destruct (Re.strip_prefix kw (id +:+ ws' +:+ "==" +:+ rest)) as [x|] eqn:E;
      [|reflexivity].
    apply strip_prefix_word in E as (w' & Hw' & ->);
      auto using identifier_word, stops_word_comparison.
    now apply run_after_keyword_nil.
Qed.

Lemma match_group_nil (r : regex) (s : string) :
  Re.run r None s = [] -> Re.match_group r s = None.
Proof. unfold Re.match_group. now intros ->. Qed.

Lemma match_group_head (r : regex) (s id rest : string)
    (tl : list (option string * string)) :
  Re.run r None s = (Some id, rest) :: tl -> Re.match_group r s = Some id.
Proof. unfold Re.match_group. now intros ->. Qed.

Section Comparison.

Variables ws id ws' rest : string.
Hypothesis Hws : str_forallb PyStr.isspace ws = true.
Hypothesis Hid : is_identifier id = true.
Hypothesis Hws' : str_forallb PyStr.isspace ws' = true.

Lemma pattern_def_comparison :
  Re.match_group pattern_def (ws +:+ id +:+ ws' +:+ "==" +:+ rest) = None.
Proof. apply match_group_nil. now apply run_keyword_nil. Qed.

Lemma pattern_class_comparison :
  Re.match_group pattern_class (ws +:+ id +:+ ws' +:+ "==" +:+ rest) = None.
Proof. apply match_group_nil. now apply run_keyword_nil. Qed.

Lemma pattern_assign_comparison :
  Re.match_group pattern_assign (ws +:+ id +:+ ws' +:+ "==" +:+ rest) = Some id.
Proof.
  assert (H1 : exists tl, Re.run (Star PyStr.isspace >> Lit "=") (Some id)
                            (ws' +:+ "==" +:+ rest)
                          = (Some id, "=" +:+ rest) :: tl).
  { eapply run_star_cat_head; [exact Hws'|reflexivity|reflexivity]. }
  destruct H1 as [tl1 H1].
  destruct (run_ident_cat_head _ None id _ _ _ Hid
              (stops_word_comparison ws' rest Hws') H1) as [tl2 H2].
  destruct (run_star_cat_head PyStr.isspace _ None ws _ _ _ Hws
              (stops_space_identifier id _ Hid) H2) as [tl3 H3].
  exact (match_group_head _ _ _ _ _ H3).
Qed.

Lemma scan_line_comparison (fv : gset string * gset string) (ln : string) :
  content ln = ws +:+ id +:+ ws' +:+ "==" +:+ rest ->
  scan_line fv ln = (fv.1, {[id]} ∪ fv.2).
Proof.
  intros E. unfold scan_line. rewrite E.
  now rewrite pattern_def_comparison, pattern_class_comparison,
    pattern_assign_comparison.
Qed.

End Comparison.

Lemma scan_line_mono (fv : gset string * gset string) (ln : string) :
  fv.2 ⊆ (scan_line fv ln).2.
Proof.
  unfold scan_line.
  destruct (Re.match_group pattern_def _); [done|].
  destruct (Re.match_group pattern_class _); [done|].
  destruct (Re.match_group pattern_assign _); simpl; set_solver.
Qed.

Lemma foldl_scan_line_mono (lines : list string) (fv : gset string * gset string) :
  fv.2 ⊆ (foldl scan_line fv lines).2.
Proof.
  revert fv; induction lines as [|ln lines IH]; intros fv; [done|].
  simpl. etrans; [apply (scan_line_mono fv ln)|apply IH].
Qed.

End Matcher.

(** ** The scorer *)

Section Scorer.

Lemma of_nat_div_same (n : nat) : n <> 0 -> (of_nat n / of_nat n == 1)%Q.
Proof.
  intros Hn. apply Qmult_inv_r. unfold of_nat, Qeq. simpl. lia.
Qed.

Lemma of_nat_zero_div (x : Q) : (of_nat 0 / x == 0)%Q.
Proof. unfold Qdiv. apply Qmult_0_l. Qed.

Lemma clamp01_bounds (x : Q) : (0 <= clamp01 x /\ clamp01 x <= 1)%Q.
Proof.
  unfold clamp01. split; [apply Q.le_max_l|].
  apply Q.max_lub; [discriminate|apply Q.le_min_l].
Qed.

Lemma hunks_match_iff (g_files a_files : gmap string (list string)) (p : string) :
  hunks_match g_files a_files p = true
  <-> exists hs, hs <> [] /\ g_files !! p = Some hs /\ a_files !! p = Some hs.
Proof.
  unfold hunks_match. rewrite !andb_true_iff, !bool_decide_eq_true. split.
  - intros [[Hg Ha] E].
    destruct (g_files !! p) as [gh|], (a_files !! p) as [ah|]; simpl in *;
      try congruence.
    exists gh. now subst.
  - intros (hs & Hne & -> & ->). now simpl.
Qed.

Lemma match_count_none (g_files a_files : gmap string (list string)) :
  (forall p, hunks_match g_files a_files p = false) ->
  match_count g_files a_files = 0.
Proof.
  intros H. unfold match_count.
  induction (elements (all_paths g_files a_files)) as [|p l IH]; [reflexivity|].
  rewrite filter_cons. destruct (decide (hunks_match g_files a_files p = true)) as [E|E].
  - rewrite H in E. discriminate.
  - exact IH.
Qed.

Lemma match_count_all (g_files a_files : gmap string (list string)) :
  (forall p, p ∈ all_paths g_files a_files -> hunks_match g_files a_files p = true) ->
  match_count g_files a_files = size (all_paths g_files a_files).
Proof.
  intros H. unfold match_count, size, set_size. simpl.
  assert (Hall : forall p, p ∈ elements (all_paths g_files a_files) ->
                      hunks_match g_files a_files p = true).
  { intros p Hp. apply H. now apply elem_of_elements. }
  induction (elements (all_paths g_files a_files)) as [|p l IH]; [reflexivity|].
  rewrite filter_cons.
  destruct (decide (hunks_match g_files a_files p = true)) as [E|E].
  - simpl. f_equal. apply IH. intros q Hq. apply Hall. now right.
  - destruct E. apply Hall. now left.
Qed.

Lemma parse_file_hunks_empty : parse_file_hunks EmptyString = ∅.
Proof. reflexivity. Qed.

Lemma collect_empty : collect_funcs_vars_from_files_map ∅ = (∅, ∅).
Proof. unfold collect_funcs_vars_from_files_map. now rewrite map_to_list_empty. Qed.

Lemma jaccard_empty_r (s : gset string) :
  jaccard s ∅ = if decide (s = ∅) then 1%Q else 0%Q.
Proof.
  unfold jaccard. rewrite (bool_decide_eq_true_2 (∅ = ∅)) by reflexivity.
  rewrite andb_true_r, orb_true_r. destruct (decide (s = ∅)) as [->|Hs].
  - now rewrite bool_decide_eq_true_2.
  - now rewrite bool_decide_eq_false_2.
Qed.

Lemma jaccard_empty_l (s : gset string) :
  jaccard ∅ s = if decide (s = ∅) then 1%Q else 0%Q.
Proof.
  unfold jaccard. rewrite (bool_decide_eq_true_2 (∅ = ∅)) by reflexivity.
  cbn [andb orb]. destruct (decide (s = ∅)) as [->|Hs].
  - now rewrite bool_decide_eq_true_2.
  - now rewrite bool_decide_eq_false_2.
Qed.

Lemma jaccard_same (s : gset string) : (jaccard s s == 1)%Q.
Proof.
  unfold jaccard. destruct (decide (s = ∅)) as [->|Hs].
  - now rewrite bool_decide_eq_true_2.
  - rewrite (bool_decide_eq_false_2 (s = ∅)) by exact Hs. cbn [andb orb].
    assert (s ∩ s = s) as -> by apply (idemp_L (∩)).
    assert (s ∪ s = s) as -> by apply (idemp_L (∪)).
    assert (Hn : size s <> 0).
    { intros E. apply size_empty_iff in E. now apply leibniz_equiv in E. }
    rewrite bool_decide_eq_true_2 by exact Hn. now apply of_nat_div_same.
Qed.

(** The file identity score when one side is empty. *)
Lemma file_score_empty_r (g : string) (g_files : gmap string (list string)) :
  PyStr.strip g <> EmptyString -> (file_score g EmptyString g_files ∅ == 0)%Q.
Proof.
  intros Hg. unfold file_score.
  destruct (bool_decide (g_files = ∅) && bool_decide (∅ = ∅)).
  - rewrite bool_decide_eq_false_2 by exact Hg. reflexivity.
  - destruct (bool_decide (all_paths g_files ∅ = ∅)); [reflexivity|].
    rewrite match_count_none; [apply of_nat_zero_div|].
    intros p. apply not_true_is_false. rewrite hunks_match_iff.
    intros (hs & _ & _ & E). now rewrite lookup_empty in E.
Qed.

Lemma file_score_empty_l (a : string) (a_files : gmap string (list string)) :
  PyStr.strip a <> EmptyString -> (file_score EmptyString a ∅ a_files == 0)%Q.
Proof.
  intros Ha. unfold file_score.
  destruct (bool_decide (∅ = ∅) && bool_decide (a_files = ∅)).
  - rewrite andb_false_r. reflexivity.
  - destruct (bool_decide (all_paths ∅ a_files = ∅)); [reflexivity|].
    rewrite match_count_none; [apply of_nat_zero_div|].
    intros p. apply not_true_is_false. rewrite hunks_match_iff.
    intros (hs & _ & E & _). now rewrite lookup_empty in E.
Qed.

(** The file identity score of a text against itself. *)
Lemma file_score_same (g : string) (g_files : gmap string (list string)) :
  g <> EmptyString ->
  map_Forall (fun _ hs => hs <> []) g_files ->
  (file_score g g g_files g_files == 1)%Q.
Proof.
  intros Hg Hne. unfold file_score.
  destruct (decide (g_files = ∅)) as [->|Hm].
  - rewrite !bool_decide_eq_true_2 by reflexivity.
    apply nonempty_true in Hg. now rewrite Hg.
  - rewrite (bool_decide_eq_false_2 (g_files = ∅)) by exact Hm. cbn [andb].
    assert (HP : all_paths g_files g_files <> ∅).
    { unfold all_paths.
      assert (dom g_files ∪ dom g_files = dom g_files) as ->
        by apply (idemp_L (∪)).
      now rewrite dom_empty_iff_L. }
    rewrite bool_decide_eq_false_2 by exact HP.
    rewrite match_count_all.
    + apply of_nat_div_same. intros E. apply size_empty_iff in E.
      now apply leibniz_equiv in E.
    + intros p Hp. unfold all_paths in Hp. apply elem_of_union in Hp.
      assert (Hd : p ∈ dom g_files) by tauto.
      apply elem_of_dom in Hd as [hs Hhs]. apply hunks_match_iff.
      exists hs. split; [exact (Hne p hs Hhs)|now split].
Qed.

End Scorer.

(** In binary64 arithmetic the clamped combination takes, at the component
    values that the examples of this file reach, the values that the
    rational model gives. *)
Lemma binary64_combination :
  Binary64.clamp01 (Binary64.combine 1 1 1) = 1%float
  /\ Binary64.clamp01 (Binary64.combine 0.5 1 1) = 0.75%float
  /\ Binary64.clamp01 (Binary64.combine 0 1 1) = 0.5%float
  /\ Binary64.clamp01 (Binary64.combine 0 1 0) = 0.35%float
  /\ Binary64.clamp01 (Binary64.combine 0 0 1) = 0.15%float
  /\ Binary64.clamp01 (Binary64.combine 0 0 0) = 0%float.
Proof. repeat split; vm_compute; reflexivity. Qed.

#[local] Instance combine_proper : Proper (Qeq ==> Qeq ==> Qeq ==> Qeq) combine.
Proof. intros x x' Hx y y' Hy z z' Hz. unfold combine. now rewrite Hx, Hy, Hz. Qed.

#[local] Instance clamp01_proper : Proper (Qeq ==> Qeq) clamp01.
Proof. intros x x' Hx. unfold clamp01. now rewrite Hx. Qed.

(** * The claims of the specification *)

Section Claims.

Import Samples.

(** ** C1 *)

(** C1, as stated, fails: a non-empty text without any file section scores
    0.5 against the empty text on either side, since the two empty sets of
    function names, and of variable names, are perfectly similar. *)
Lemma score_against_empty_not_zero :
  PyStr.strip plain_text <> EmptyString
  /\ (score_patch_similarity plain_text EmptyString == 1 # 2)%Q
  /\ (score_patch_similarity EmptyString plain_text == 1 # 2)%Q
  /\ ~ (score_patch_similarity plain_text EmptyString == 0)%Q
  /\ ~ (score_patch_similarity EmptyString plain_text == 0)%Q.
Proof. repeat split; vm_compute; congruence. Qed.

(** C1, amended: for every diff text [d] that is not empty after trimming,
    in the score of [d] against the empty text, on either side, the file
    identity component is 0.0, while the function component and the
    variable component are 1.0 when [d] yields no function name,
    respectively no variable name, and 0.0 otherwise; the score is
    therefore 0.35 if [d] has no function name, plus 0.15 if it has no
    variable name, and it is 0.0 when [d] yields both a function name and a
    variable name. *)
Theorem score_against_empty (d : string) :
  PyStr.strip d <> EmptyString ->
  let FV := collect_funcs_vars_from_files_map (parse_file_hunks (PyStr.strip d)) in
  (file_component (PyStr.strip d) EmptyString == 0)%Q
  /\ (file_component EmptyString (PyStr.strip d) == 0)%Q
  /\ func_component (PyStr.strip d) EmptyString = weight_if_empty 1 FV.1
  /\ func_component EmptyString (PyStr.strip d) = weight_if_empty 1 FV.1
  /\ var_component (PyStr.strip d) EmptyString = weight_if_empty 1 FV.2
  /\ var_component EmptyString (PyStr.strip d) = weight_if_empty 1 FV.2
  /\ (score_patch_similarity d EmptyString
      == weight_if_empty (7 # 20) FV.1 + weight_if_empty (3 # 20) FV.2)%Q
  /\ (score_patch_similarity EmptyString d
      == weight_if_empty (7 # 20) FV.1 + weight_if_empty (3 # 20) FV.2)%Q
  /\ (FV.1 <> ∅ -> FV.2 <> ∅ ->
      (score_patch_similarity d EmptyString == 0)%Q
      /\ (score_patch_similarity EmptyString d == 0)%Q).
Proof.
  intros Hd FV.
  assert (Hs : PyStr.strip (PyStr.strip d) <> EmptyString) by now rewrite strip_idem.
  pose proof (file_score_empty_r (PyStr.strip d) (parse_file_hunks (PyStr.strip d)) Hs)
    as Hr.
  pose proof (file_score_empty_l (PyStr.strip d) (parse_file_hunks (PyStr.strip d)) Hs)
    as Hl.
  assert (Hfr : func_component (PyStr.strip d) EmptyString = weight_if_empty 1 FV.1).
  { unfold func_component. rewrite parse_file_hunks_empty, collect_empty.
    apply jaccard_empty_r. }
  assert (Hfl : func_component EmptyString (PyStr.strip d) = weight_if_empty 1 FV.1).
  { unfold func_component. rewrite parse_file_hunks_empty, collect_empty.
    apply jaccard_empty_l. }
  assert (Hvr : var_component (PyStr.strip d) EmptyString = weight_if_empty 1 FV.2).
  { unfold var_component. rewrite parse_file_hunks_empty, collect_empty.
    apply jaccard_empty_r. }
  assert (Hvl : var_component EmptyString (PyStr.strip d) = weight_if_empty 1 FV.2).
  { unfold var_component. rewrite parse_file_hunks_empty, collect_empty.
    apply jaccard_empty_l. }
  assert (Hsr : (score_patch_similarity d EmptyString
                 == weight_if_empty (7 # 20) FV.1 + weight_if_empty (3 # 20) FV.2)%Q).
  { unfold score_patch_similarity. change (PyStr.strip EmptyString) with EmptyString.
    apply nonempty_true in Hd. rewrite Hd. cbn [negb andb].
    unfold file_component. rewrite parse_file_hunks_empty at 1. rewrite Hr, Hfr, Hvr.
    unfold weight_if_empty.
    destruct (decide (FV.1 = ∅)), (decide (FV.2 = ∅)); reflexivity. }
  assert (Hsl : (score_patch_similarity EmptyString d
                 == weight_if_empty (7 # 20) FV.1 + weight_if_empty (3 # 20) FV.2)%Q).
  { unfold score_patch_similarity. change (PyStr.strip EmptyString) with EmptyString.
    apply nonempty_true in Hd. rewrite Hd. cbn [negb andb]. rewrite andb_false_r.
    unfold file_component. rewrite parse_file_hunks_empty at 1. rewrite Hl, Hfl, Hvl.
    unfold weight_if_empty.
    destruct (decide (FV.1 = ∅)), (decide (FV.2 = ∅)); reflexivity. }
  repeat split; auto.
  - rewrite Hsr. unfold weight_if_empty. now rewrite !decide_False by assumption.
  - rewrite Hsl. unfold weight_if_empty. now rewrite !decide_False by assumption.
Qed.

Lemma score_against_empty_witness :
  PyStr.strip one_file <> EmptyString
  /\ (score_patch_similarity one_file EmptyString == 0)%Q
  /\ (score_patch_similarity EmptyString one_file == 0)%Q.
Proof.
  assert (H : PyStr.strip one_file <> EmptyString) by (vm_compute; congruence).
  split; [exact H|].
  destruct (score_against_empty one_file H) as (_ & _ & _ & _ & _ & _ & _ & _ & H0).
  apply H0; vm_compute; congruence.
Defined.

(** ** C2 *)

(** C2, as stated, fails: when a path stands under two headers, the value
    of its key holds the hunks of the second section only, not the hunks of
    both sections one after the other. *)
Lemma parse_file_hunks_not_concatenation :
  length (sections_for "f" (sections_of twice)) = 2
  /\ hunks_of_all_sections "f" (sections_of twice)
     = ["@@ -1 +1 @@" +:+ LF +:+ "+a"; "@@ -9 +9 @@" +:+ LF +:+ "+b"]
  /\ parse_file_hunks twice !! "f" = Some ["@@ -9 +9 @@" +:+ LF +:+ "+b"]
  /\ parse_file_hunks twice !! "f"
     <> Some (hunks_of_all_sections "f" (sections_of twice)).
Proof. repeat split; vm_compute; congruence. Qed.

(** C2, amended: for every diff text and every path, [parse_file_hunks]
    returns a map with at most one key for the path, and the value of that
    key is the hunk sequence of the last section of the path in the text,
    the texts of the blocks of that section alone: a later [+++ b/<path>]
    header for the same path replaces what an earlier section collected. A
    path is a key exactly when it has a section. *)
Theorem parse_file_hunks_last_section (d p : string) :
  parse_file_hunks d !! p = hunks_of_last_section p (sections_of d).
Proof.
  rewrite parse_file_hunks_lines. unfold parse_lines, sections_of.
  rewrite store_sections, store_preamble by apply file_sections_pre.
  apply lookup_sections.
Qed.

(** ** C3 *)

(** C3, as stated, fails: a path that is a key of both maps with two empty
    hunk sequences is not counted as a match. *)
Lemma file_score_empty_sequences_unmatched :
  let m := parse_file_hunks header_only in
  m = {[ "f" := [] ]}
  /\ same_hunks m m "f" = true
  /\ hunks_match m m "f" = false
  /\ (ratio_score (same_hunks m m) (all_paths m m) == 1)%Q
  /\ (file_score header_only header_only m m == 0)%Q
  /\ ~ (file_score header_only header_only m m
        == ratio_score (same_hunks m m) (all_paths m m))%Q.
Proof. repeat split; vm_compute; congruence. Qed.

(** C3, amended: in the file identity component, when at least one parsed
    map is not empty, a path of the union [P] of the key sets is counted as
    a match exactly when it is a key of both maps and the two hunk
    sequences are equal element for element and not empty;
    fileScore = matches / |P|, and [P] is not empty then. *)
Theorem file_score_counts_equal_nonempty
    (g a : string) (g_files a_files : gmap string (list string)) :
  ~ (g_files = ∅ /\ a_files = ∅) ->
  (forall p, hunks_match g_files a_files p = same_nonempty_hunks g_files a_files p)
  /\ all_paths g_files a_files <> ∅
  /\ file_score g a g_files a_files
     = ratio_score (same_nonempty_hunks g_files a_files) (all_paths g_files a_files).
Proof.
  intros Hne.
  assert (Hcrit : forall p,
    hunks_match g_files a_files p = same_nonempty_hunks g_files a_files p).
  { intros p. unfold hunks_match, same_nonempty_hunks.
    destruct (g_files !! p) as [[|h gh]|], (a_files !! p) as [[|k ah]|];
      reflexivity. }
  assert (HP : all_paths g_files a_files <> ∅).
  { unfold all_paths. intros E. apply Hne.
    apply empty_union_L in E as [Eg Ea].
    now apply dom_empty_iff_L in Eg, Ea. }
  split; [exact Hcrit|]. split; [exact HP|].
  unfold file_score, ratio_score, match_count.
  destruct (bool_decide (g_files = ∅) && bool_decide (a_files = ∅)) eqn:E.
  { apply andb_true_iff in E as [Eg Ea].
    apply bool_decide_eq_true in Eg, Ea. tauto. }
  rewrite bool_decide_eq_false_2 by exact HP. rewrite decide_False by exact HP.
  do 3 f_equal. apply list_filter_iff. intros p. now rewrite Hcrit.
Qed.

Lemma file_score_counts_equal_nonempty_witness :
  let g := parse_file_hunks one_file in
  let a := parse_file_hunks trailing_header in
  ~ (g = ∅ /\ a = ∅)
  /\ file_score one_file trailing_header g a
     = ratio_score (same_nonempty_hunks g a) (all_paths g a).
Proof.
  assert (H : ~ (parse_file_hunks one_file = ∅ /\ parse_file_hunks trailing_header = ∅)).
  { intros [E _]. vm_compute in E. congruence. }
  split; [exact H|].
  exact (proj2 (proj2 (file_score_counts_equal_nonempty one_file trailing_header _ _ H))).
Defined.

(** ** C4 *)




(** ** C5 *)

(** C5, as stated, fails: a text with a well-formed file and hunk section
    and, besides, a file header that no hunk follows scores 0.75 against
    itself, the path without hunks not being counted as a match. *)
Lemma score_self_below_one :
  PyStr.strip trailing_header <> EmptyString
  /\ parse_file_hunks trailing_header !! "a" = Some ["@@ -1 +1 @@" +:+ LF +:+ "+x"]
  /\ parse_file_hunks trailing_header !! "b" = Some []
  /\ (score_patch_similarity trailing_header trailing_header == 3 # 4)%Q
  /\ ~ (score_patch_similarity trailing_header trailing_header == 1)%Q.
Proof. repeat split; vm_compute; congruence. Qed.

(** C5, amended: for every diff text [d] that is not empty after trimming
    and in which every file section that the parser recognises, at least
    one, holds at least one hunk, score(d, d) = 1.0. *)
Theorem score_self (d : string) :
  PyStr.strip d <> EmptyString ->
  parse_file_hunks (PyStr.strip d) <> ∅ ->
  map_Forall (fun _ hs => hs <> []) (parse_file_hunks (PyStr.strip d)) ->
  (score_patch_similarity d d == 1)%Q.
Proof.
  intros Hd _ Hne. unfold score_patch_similarity.
  pose proof Hd as Hd'. apply nonempty_true in Hd'. rewrite Hd'. cbn [negb andb].
  unfold file_component, func_component, var_component.
  rewrite (file_score_same _ _ Hd Hne), !jaccard_same. reflexivity.
Qed.

Lemma score_self_witness :
  PyStr.strip one_file <> EmptyString
  /\ parse_file_hunks (PyStr.strip one_file) <> ∅
  /\ map_Forall (fun _ hs => hs <> []) (parse_file_hunks (PyStr.strip one_file))
  /\ (score_patch_similarity one_file one_file == 1)%Q.
Proof.
  assert (H1 : PyStr.strip one_file <> EmptyString) by (vm_compute; congruence).
  assert (H2 : parse_file_hunks (PyStr.strip one_file) <> ∅)
    by (vm_compute; congruence).
  assert (H3 : map_Forall (fun _ hs => hs <> [])
                 (parse_file_hunks (PyStr.strip one_file))).
  { assert (E : parse_file_hunks (PyStr.strip one_file)
                = {[ "foo.py" := ["@@ -1,2 +1,3 @@" +:+ LF +:+ "+def bar():"
                                    +:+ LF +:+ "+    x = 1"] ]})
      by reflexivity.
    rewrite E. apply map_Forall_singleton. congruence. }
  split; [exact H1|]. split; [exact H2|]. split; [exact H3|].
  exact (score_self one_file H1 H2 H3).
Defined.

(** ** C6 *)

(** C6, as stated, fails on the pair of empty texts: the score is 0.0
    there, whereas the clamped combination of the three components, two of
    which compare empty sets, is 0.5. *)
Lemma score_both_empty_not_combination :
  (score_patch_similarity EmptyString EmptyString == 0)%Q
  /\ (clamp01 (combine (file_component EmptyString EmptyString)
                       (func_component EmptyString EmptyString)
                       (var_component EmptyString EmptyString)) == 1 # 2)%Q
  /\ ~ (score_patch_similarity EmptyString EmptyString
        == clamp01 (combine (file_component EmptyString EmptyString)
                            (func_component EmptyString EmptyString)
                            (var_component EmptyString EmptyString)))%Q.
Proof. repeat split; vm_compute; congruence. Qed.

(** C6, amended: for every pair of inputs that are not both empty after
    trimming, score returns exactly
    0.5*fileScore + 0.35*funcScore + 0.15*varScore clamped into [0.0, 1.0];
    for two inputs that are empty after trimming it returns 0.0; the
    returned value always lies in [0, 1]. *)
Theorem score_is_clamped_combination (generated actual : string) :
  let g := PyStr.strip generated in
  let a := PyStr.strip actual in
  (~ (g = EmptyString /\ a = EmptyString) ->
   score_patch_similarity generated actual
   = clamp01 ((1 # 2) * file_component g a + (7 # 20) * func_component g a
              + (3 # 20) * var_component g a))
  /\ (g = EmptyString /\ a = EmptyString ->
      score_patch_similarity generated actual = 0%Q)
  /\ (0 <= score_patch_similarity generated actual)%Q
  /\ (score_patch_similarity generated actual <= 1)%Q.
Proof.
  intros g a. unfold score_patch_similarity. fold g a.
  destruct (negb (PyStr.nonempty g) && negb (PyStr.nonempty a)) eqn:E.
  - apply andb_true_iff in E as [Eg Ea].
    apply negb_true_iff in Eg, Ea. apply nonempty_false in Eg, Ea.
    repeat split; try discriminate. tauto.
  - repeat split; try apply clamp01_bounds.
    intros [Eg Ea]. rewrite Eg, Ea in E. discriminate.
Qed.

Lemma score_is_clamped_combination_witness :
  ~ (PyStr.strip one_file = EmptyString /\ PyStr.strip trailing_header = EmptyString)
  /\ score_patch_similarity one_file trailing_header
     = clamp01 ((1 # 2) * file_component (PyStr.strip one_file) (PyStr.strip trailing_header)
                + (7 # 20) * func_component (PyStr.strip one_file) (PyStr.strip trailing_header)
                + (3 # 20) * var_component (PyStr.strip one_file) (PyStr.strip trailing_header)).
Proof.
  assert (H : ~ (PyStr.strip one_file = EmptyString
                 /\ PyStr.strip trailing_header = EmptyString)).
  { intros [E _]. vm_compute in E. congruence. }
  split; [exact H|].
  exact (proj1 (score_is_clamped_combination one_file trailing_header) H).
Defined.

(** ** C7 *)

(** C7: when both trimmed inputs parse to empty maps, the file identity
    component is 1.0 if the two trimmed texts are equal and not empty, and
    0.0 otherwise. *)
Theorem file_score_text_fallback (generated actual : string) :
  let g := PyStr.strip generated in
  let a := PyStr.strip actual in
  parse_file_hunks g = ∅ -> parse_file_hunks a = ∅ ->
  file_component g a
  = if bool_decide (g = a) && PyStr.nonempty g then 1%Q else 0%Q.
Proof.
  intros g a Hg Ha. unfold file_component, file_score. rewrite Hg, Ha.
  rewrite bool_decide_eq_true_2 by reflexivity. cbn [andb].
  unfold g, a. now rewrite !strip_idem.
Qed.

Lemma file_score_text_fallback_witness :
  parse_file_hunks (PyStr.strip plain_text) = ∅
  /\ file_component (PyStr.strip plain_text) (PyStr.strip plain_text) = 1%Q.
Proof.
  assert (H : parse_file_hunks (PyStr.strip plain_text) = ∅) by reflexivity.
  split; [exact H|].
  exact (file_score_text_fallback plain_text plain_text H H).
Defined.

(** ** C8 *)

(** C8: [parse_file_hunks] is a total function of its text; a text of
    white space only yields the empty map; and a line that is neither a
    file header, nor a hunk header, nor a body line has no effect on the
    result, wherever it stands. *)
Theorem parse_file_hunks_lenient (d : string) (before after : list string) (ln : string) :
  (str_forallb PyStr.isspace d = true -> parse_file_hunks d = ∅)
  /\ parse_file_hunks d = parse_lines (PyStr.splitlines d)
  /\ parse_file_hunks d
     = parse_lines (filter (fun l => recognised l = true) (PyStr.splitlines d))
  /\ (recognised ln = false ->
      parse_lines (before ++ ln :: after) = parse_lines (before ++ after)).
Proof.
  split; [|split; [|split]].
  - intros Hd. rewrite parse_file_hunks_lines. unfold parse_lines.
    now rewrite foldl_step_space_lines by now apply splitlines_forall.
  - apply parse_file_hunks_lines.
  - rewrite parse_file_hunks_lines. unfold parse_lines.
    now rewrite foldl_step_recognised.
  - intros Hln. unfold parse_lines. rewrite !foldl_app. simpl.
    now rewrite step_unrecognised.
Qed.

Lemma parse_file_hunks_lenient_witness :
  parse_file_hunks "   " = ∅
  /\ parse_lines ["+++ b/f"; "index 12..34"; "+x"] = parse_lines ["+++ b/f"; "+x"].
Proof.
  split.
  - apply (proj1 (parse_file_hunks_lenient "   " [] [] EmptyString)). reflexivity.
  - apply (proj2 (proj2 (proj2
      (parse_file_hunks_lenient EmptyString ["+++ b/f"] ["+x"] "index 12..34")))).
    reflexivity.
Defined.

(** ** C9 *)

(** C9: the three scenarios of the extractor. *)
Theorem extract_scenarios :
  extract_funcs_and_vars_from_hunk "+def handle_request(self, req):"
  = ({["handle_request"]}, ∅)
  /\ extract_funcs_and_vars_from_hunk "+    timeout = 30" = (∅, {["timeout"]})
  /\ extract_funcs_and_vars_from_hunk "+    if timeout == 30:" = (∅, ∅).
Proof. repeat split; reflexivity. Qed.

(** ** C10 *)

(** C10: for every line of a hunk whose content, the line without its
    leading marker, is optional white space, an identifier, optional white
    space and then [==], the extractor adds the identifier to the set of
    variables. *)
Theorem comparison_recorded_as_variable (hunk ln ws id ws' rest : string) :
  ln ∈ PyStr.splitlines hunk ->
  content ln = ws +:+ id +:+ ws' +:+ "==" +:+ rest ->
  str_forallb PyStr.isspace ws = true ->
  is_identifier id = true ->
  str_forallb PyStr.isspace ws' = true ->
  id ∈ (extract_funcs_and_vars_from_hunk hunk).2.
Proof.
  intros Hln Hc Hws Hid Hws'. unfold extract_funcs_and_vars_from_hunk.
  apply list_elem_of_split in Hln as (l1 & l2 & ->).
  rewrite foldl_app. simpl.
  apply (foldl_scan_line_mono l2).
  rewrite (scan_line_comparison ws id ws' rest Hws Hid Hws' _ ln Hc).
  simpl. set_solver.
Qed.

Lemma comparison_recorded_as_variable_witness :
  "x" ∈ (extract_funcs_and_vars_from_hunk ("@@ -1 +1 @@" +:+ LF +:+ "+x == 1")).2.
Proof.
  apply (comparison_recorded_as_variable _ "+x == 1" "" "x" " " " 1").
  - right. left.
  - reflexivity.
  - reflexivity.
  - reflexivity.
  - reflexivity.
Defined.

End Claims.

(** * Further properties of the code *)

(** ** The scorer *)

Section ScorerMore.

Lemma of_nat_nonneg (n : nat) : (0 <= of_nat n)%Q.
Proof. unfold of_nat, Qle. simpl. lia. Qed.

Lemma of_nat_pos (n : nat) : n <> 0 -> (0 < of_nat n)%Q.
Proof. intros H. unfold of_nat, Qlt. simpl. lia. Qed.

Lemma of_nat_le (m n : nat) : m <= n -> (of_nat m <= of_nat n)%Q.
Proof. intros H. unfold of_nat, Qle. simpl. lia. Qed.

Lemma of_nat_inj (m n : nat) : (of_nat m == of_nat n)%Q -> m = n.
Proof. unfold of_nat, Qeq. simpl. lia. Qed.

Lemma ratio_bounds (m n : nat) :
  m <= n -> n <> 0 -> (0 <= of_nat m / of_nat n /\ of_nat m / of_nat n <= 1)%Q.
Proof.
  intros Hmn Hn. pose proof (of_nat_pos n Hn) as Hpos. split.
  - apply Qle_shift_div_l; [exact Hpos|]. rewrite Qmult_0_l. apply of_nat_nonneg.
  - apply Qle_shift_div_r; [exact Hpos|]. rewrite Qmult_1_l. now apply of_nat_le.
Qed.

Lemma ratio_one (m n : nat) : n <> 0 -> (of_nat m / of_nat n == 1)%Q -> m = n.
Proof.
  intros Hn H. apply of_nat_inj.
  assert (Hne : ~ (of_nat n == 0)%Q).
  { intros E. apply (of_nat_inj n 0) in E. congruence. }
  rewrite <- (Qmult_1_l (of_nat n)), <- H. field. exact Hne.
Qed.

Lemma ratio_zero (m n : nat) : n <> 0 -> (of_nat m / of_nat n == 0)%Q -> m = 0.
Proof.
  intros Hn H. apply of_nat_inj.
  assert (Hne : ~ (of_nat n == 0)%Q).
  { intros E. apply (of_nat_inj n 0) in E. congruence. }
  transitivity (of_nat m / of_nat n * of_nat n)%Q; [field; exact Hne|].
  rewrite H. apply Qmult_0_l.
Qed.

Lemma match_count_le (g_files a_files : gmap string (list string)) :
  match_count g_files a_files <= size (all_paths g_files a_files).
Proof. unfold match_count. apply length_filter. Qed.

Lemma jaccard_bounds (s1 s2 : gset string) :
  (0 <= jaccard s1 s2 /\ jaccard s1 s2 <= 1)%Q.
Proof.
  unfold jaccard.
  destruct (bool_decide (s1 = ∅) && bool_decide (s2 = ∅)); [split; discriminate|].
  destruct (bool_decide (s1 = ∅) || bool_decide (s2 = ∅)); [split; discriminate|].
  cbv zeta. case_bool_decide as Hu; [|split; discriminate].
  apply ratio_bounds; [|exact Hu]. apply subseteq_size. set_solver.
Qed.

Lemma file_score_bounds (g a : string) (g_files a_files : gmap string (list string)) :
  (0 <= file_score g a g_files a_files /\ file_score g a g_files a_files <= 1)%Q.
Proof.
  unfold file_score.
  destruct (bool_decide (g_files = ∅) && bool_decide (a_files = ∅)).
  { destruct (bool_decide (PyStr.strip g = PyStr.strip a) && PyStr.nonempty g);
      split; discriminate. }
  cbv zeta. case_bool_decide as HP; [split; discriminate|].
  apply ratio_bounds; [apply match_count_le|].
  intros E. apply size_empty_inv in E. now apply leibniz_equiv in E.
Qed.

Lemma clamp01_id (x : Q) : (0 <= x)%Q -> (x <= 1)%Q -> (clamp01 x == x)%Q.
Proof.
  intros H0 H1. unfold clamp01.
  rewrite (Q.min_r 1 x H1). now apply Q.max_r.
Qed.

Lemma hunks_match_sym (g_files a_files : gmap string (list string)) (p : string) :
  hunks_match g_files a_files p = hunks_match a_files g_files p.
Proof.
  apply eq_true_iff_eq. rewrite !hunks_match_iff.
  split; intros (hs & ? & ? & ?); exists hs; auto.
Qed.

Lemma match_count_sym (g_files a_files : gmap string (list string)) :
  match_count g_files a_files = match_count a_files g_files.
Proof.
  unfold match_count, all_paths.
  assert (dom a_files ∪ dom g_files = dom g_files ∪ dom a_files) as ->
    by apply (comm_L (∪)).
  f_equal. apply list_filter_iff. intros p. now rewrite hunks_match_sym.
Qed.

Lemma jaccard_sym (s1 s2 : gset string) : jaccard s1 s2 = jaccard s2 s1.
Proof.
  unfold jaccard. rewrite (andb_comm (bool_decide (s2 = ∅))).
  rewrite (orb_comm (bool_decide (s2 = ∅))).
  assert (s2 ∩ s1 = s1 ∩ s2) as -> by apply (comm_L (∩)).
  assert (s2 ∪ s1 = s1 ∪ s2) as -> by apply (comm_L (∪)).
  reflexivity.
Qed.

Lemma file_component_sym (generated actual : string) :
  file_component (PyStr.strip generated) (PyStr.strip actual)
  = file_component (PyStr.strip actual) (PyStr.strip generated).
Proof.
  unfold file_component, file_score. rewrite !strip_idem.
  rewrite (andb_comm (bool_decide (parse_file_hunks (PyStr.strip actual) = ∅))).
  rewrite (match_count_sym (parse_file_hunks (PyStr.strip actual))).
  unfold all_paths.
  assert (dom (parse_file_hunks (PyStr.strip actual))
          ∪ dom (parse_file_hunks (PyStr.strip generated))
          = dom (parse_file_hunks (PyStr.strip generated))
            ∪ dom (parse_file_hunks (PyStr.strip actual))) as ->
    by apply (comm_L (∪)).
  destruct (decide (PyStr.strip generated = PyStr.strip actual)) as [E|E].
  - now rewrite E.
  - rewrite (bool_decide_eq_false_2 _ E).
    rewrite (bool_decide_eq_false_2 (PyStr.strip actual = PyStr.strip generated))
      by congruence.
    reflexivity.
Qed.

(** The score does not depend on which text is the generated one. *)
Theorem score_symmetric (generated actual : string) :
  score_patch_similarity generated actual = score_patch_similarity actual generated.
Proof.
  unfold score_patch_similarity.
  rewrite (andb_comm (negb (PyStr.nonempty (PyStr.strip actual)))).
  rewrite file_component_sym. unfold func_component, var_component.
  now rewrite (jaccard_sym (collect_funcs_vars_from_files_map
                              (parse_file_hunks (PyStr.strip actual))).1),
    (jaccard_sym (collect_funcs_vars_from_files_map
                    (parse_file_hunks (PyStr.strip actual))).2).
Qed.

Lemma components_bounds (g a : string) :
  (0 <= file_component g a <= 1)%Q
  /\ (0 <= func_component g a <= 1)%Q
  /\ (0 <= var_component g a <= 1)%Q.
Proof.
  split; [apply file_score_bounds|]. split; apply jaccard_bounds.
Qed.

Lemma score_unclamped (generated actual : string) :
  ~ (PyStr.strip generated = EmptyString /\ PyStr.strip actual = EmptyString) ->
  (score_patch_similarity generated actual
   == combine (file_component (PyStr.strip generated) (PyStr.strip actual))
              (func_component (PyStr.strip generated) (PyStr.strip actual))
              (var_component (PyStr.strip generated) (PyStr.strip actual)))%Q.
Proof.
  intros Hne. unfold score_patch_similarity.
  destruct (negb (PyStr.nonempty (PyStr.strip generated))
            && negb (PyStr.nonempty (PyStr.strip actual))) eqn:E.
  { apply andb_true_iff in E as [Eg Ea].
    apply negb_true_iff in Eg, Ea. apply nonempty_false in Eg, Ea. tauto. }
  pose proof (components_bounds (PyStr.strip generated) (PyStr.strip actual))
    as (Hf & Hu & Hv).
  unfold combine. apply clamp01_id; lra.
Qed.

(** The three components, as computed from any two texts, each lie in
    [0, 1]. *)
Theorem components_in_unit_interval (g a : string) :
  (0 <= file_component g a <= 1)%Q
  /\ (0 <= func_component g a <= 1)%Q
  /\ (0 <= var_component g a <= 1)%Q.
Proof. apply components_bounds. Qed.

Lemma filter_length_all {A} (P : A -> Prop) `{!forall x, Decision (P x)} (l : list A) :
  length (filter P l) = length l -> Forall P l.
Proof.
  induction l as [|x l IH]; [constructor|].
  rewrite filter_cons. destruct (decide (P x)) as [Hx|Hx]; simpl; intros E.
  - constructor; [exact Hx|]. apply IH. lia.
  - pose proof (length_filter P l). lia.
Qed.

Lemma filter_length_none {A} (P : A -> Prop) `{!forall x, Decision (P x)} (l : list A) :
  length (filter P l) = 0 -> Forall (fun x => ~ P x) l.
Proof.
  induction l as [|x l IH]; [constructor|].
  rewrite filter_cons. destruct (decide (P x)) as [Hx|Hx]; simpl; intros E.
  - discriminate.
  - constructor; auto.
Qed.

Lemma size_nonzero (s : gset string) : s <> ∅ -> size s <> 0.
Proof. intros Hs E. apply size_empty_inv in E. now apply leibniz_equiv in E. Qed.

Lemma jaccard_one_iff (s1 s2 : gset string) : (jaccard s1 s2 == 1)%Q <-> s1 = s2.
Proof.
  split; [|intros ->; apply jaccard_same].
  unfold jaccard.
  destruct (decide (s1 = ∅)) as [->|H1], (decide (s2 = ∅)) as [->|H2];
    rewrite ?(bool_decide_eq_true_2 (∅ = ∅)) by reflexivity;
    rewrite ?(bool_decide_eq_false_2 _ H1), ?(bool_decide_eq_false_2 _ H2);
    cbn [andb orb]; try discriminate; [reflexivity|].
  cbv zeta. case_bool_decide as Hu; [|discriminate].
  intros E. apply ratio_one in E; [|exact Hu].
  assert (Heq : s1 ∩ s2 = s1 ∪ s2).
  { apply set_subseteq_size_eq; [set_solver|lia]. }
  apply set_eq. intros x. split; intros Hx.
  - assert (Hx' : x ∈ s1 ∩ s2) by (rewrite Heq; set_solver). set_solver.
  - assert (Hx' : x ∈ s1 ∩ s2) by (rewrite Heq; set_solver). set_solver.
Qed.

Lemma jaccard_zero_iff (s1 s2 : gset string) :
  (jaccard s1 s2 == 0)%Q <-> s1 ∩ s2 = ∅ /\ ~ (s1 = ∅ /\ s2 = ∅).
Proof.
  unfold jaccard.
  destruct (decide (s1 = ∅)) as [->|H1], (decide (s2 = ∅)) as [->|H2];
    rewrite ?(bool_decide_eq_true_2 (∅ = ∅)) by reflexivity;
    rewrite ?(bool_decide_eq_false_2 _ H1), ?(bool_decide_eq_false_2 _ H2);
    cbn [andb orb].
  - split; [discriminate|]. intros [_ H]. now destruct H.
  - split; [intros _|reflexivity]. split; [set_solver|tauto].
  - split; [intros _|reflexivity]. split; [set_solver|tauto].
  - cbv zeta.
    assert (Hu : size (s1 ∪ s2) <> 0).
    { apply size_nonzero. intros E. apply H1. set_solver. }
    rewrite (bool_decide_eq_true_2 _ Hu). split.
    + intros E. apply ratio_zero in E; [|exact Hu].
      split; [|tauto]. apply size_empty_inv in E. now apply leibniz_equiv in E.
    + intros [E _]. rewrite E, size_empty. apply of_nat_zero_div.
Qed.

(** The file identity score is 1.0 exactly when the two maps are equal and
    hold no empty hunk list and, when they are empty, the texts are equal
    and not empty. *)
Lemma file_score_one_iff (g a : string) (g_files a_files : gmap string (list string)) :
  (file_score g a g_files a_files == 1)%Q
  <-> g_files = a_files
      /\ map_Forall (fun _ hs => hs <> []) g_files
      /\ (g_files = ∅ -> PyStr.strip g = PyStr.strip a /\ g <> EmptyString).
Proof.
  unfold file_score.
  destruct (decide (g_files = ∅ /\ a_files = ∅)) as [[-> ->]|Hne].
  - rewrite !bool_decide_eq_true_2 by reflexivity. cbn [andb].
    destruct (bool_decide (PyStr.strip g = PyStr.strip a) && PyStr.nonempty g) eqn:E.
    + apply andb_true_iff in E as [E1 E2].
      apply bool_decide_eq_true in E1. apply nonempty_true in E2.
      split; [intros _|reflexivity].
      split; [reflexivity|]. split; [apply map_Forall_empty|auto].
    + split; [discriminate|]. intros (_ & _ & H).
      destruct (H eq_refl) as [E1 E2]. apply nonempty_true in E2.
      rewrite (bool_decide_eq_true_2 _ E1), E2 in E. discriminate.
  - assert (Hc : bool_decide (g_files = ∅) && bool_decide (a_files = ∅) = false).
    { apply not_true_is_false. intros E. apply andb_true_iff in E as [E1 E2].
      apply bool_decide_eq_true in E1, E2. tauto. }
    rewrite Hc. cbv zeta.
    assert (HP : all_paths g_files a_files <> ∅).
    { unfold all_paths. intros E. apply Hne.
      apply empty_union_L in E as [Eg Ea]. now apply dom_empty_iff_L in Eg, Ea. }
    rewrite (bool_decide_eq_false_2 _ HP). split.
    + intros E. apply ratio_one in E; [|now apply size_nonzero].
      assert (Hall : forall p, p ∈ all_paths g_files a_files ->
                          hunks_match g_files a_files p = true).
      { intros p Hp. unfold match_count in E.
        apply filter_length_all in E. rewrite Forall_forall in E.
        apply E. now apply elem_of_elements. }
      assert (Heq : g_files = a_files).
      { apply map_eq. intros p.
        destruct (decide (p ∈ all_paths g_files a_files)) as [Hp|Hp].
        - apply Hall, hunks_match_iff in Hp as (hs & _ & -> & ->). reflexivity.
        - unfold all_paths in Hp. apply not_elem_of_union in Hp as [Hg Ha].
          apply not_elem_of_dom in Hg, Ha. now rewrite Hg, Ha. }
      split; [exact Heq|]. split.
      * intros p hs Hp.
        assert (Hin : p ∈ all_paths g_files a_files).
        { unfold all_paths. apply elem_of_union. left. apply elem_of_dom. eauto. }
        apply Hall, hunks_match_iff in Hin as (hs' & Hne' & Hg & _). congruence.
      * intros ->. subst. tauto.
    + intros (<- & Hall & _). rewrite match_count_all.
      * apply of_nat_div_same. now apply size_nonzero.
      * intros p Hp. unfold all_paths in Hp. apply elem_of_union in Hp.
        assert (Hd : p ∈ dom g_files) by tauto.
        apply elem_of_dom in Hd as [hs Hhs]. apply hunks_match_iff.
        exists hs. split; [exact (Hall p hs Hhs)|now split].
Qed.

Lemma weighted_sum_zero (f u v : Q) :
  (0 <= f <= 1)%Q -> (0 <= u <= 1)%Q -> (0 <= v <= 1)%Q ->
  (combine f u v == 0)%Q <-> (f == 0 /\ u == 0 /\ v == 0)%Q.
Proof.
  intros Hf Hu Hv. unfold combine. split.
  - intros E. repeat split; lra.
  - intros (-> & -> & ->). reflexivity.
Qed.

(** Perfect components: the file, function and variable components of two
    trimmed texts are all 1.0 exactly when the two texts parse to the same
    map, no file of which has an empty hunk list, and, if that map is
    empty, the trimmed texts are equal and not empty. The file component
    alone decides it: equal maps give equal sets of names. *)
Theorem components_one_iff (generated actual : string) :
  let g := PyStr.strip generated in
  let a := PyStr.strip actual in
  ((file_component g a == 1)%Q /\ (func_component g a == 1)%Q
   /\ (var_component g a == 1)%Q)
  <-> parse_file_hunks g = parse_file_hunks a
      /\ map_Forall (fun _ hs => hs <> []) (parse_file_hunks g)
      /\ (parse_file_hunks g = ∅ -> g = a /\ g <> EmptyString).
Proof.
  intros g a. unfold file_component, func_component, var_component.
  rewrite file_score_one_iff, !jaccard_one_iff. unfold g, a. rewrite !strip_idem.
  fold g a. split.
  - now intros (H & _ & _).
  - intros (E & Hall & Hg).
    split; [split; [exact E|split; [exact Hall|exact Hg]]|]. now rewrite E.
Qed.

(** A score of 0.0: unless both trimmed texts are empty, the score is 0.0
    exactly when the file identity score is 0.0 and, both for the function
    names and for the variable names, the two sets are disjoint and not
    both empty. In particular a pair of texts with no function name on
    either side never scores 0.0. *)
Theorem score_zero_iff (generated actual : string) :
  let g := PyStr.strip generated in
  let a := PyStr.strip actual in
  let G := collect_funcs_vars_from_files_map (parse_file_hunks g) in
  let A := collect_funcs_vars_from_files_map (parse_file_hunks a) in
  ~ (g = EmptyString /\ a = EmptyString) ->
  (score_patch_similarity generated actual == 0)%Q
  <-> (file_component g a == 0)%Q
      /\ (G.1 ∩ A.1 = ∅ /\ ~ (G.1 = ∅ /\ A.1 = ∅))
      /\ (G.2 ∩ A.2 = ∅ /\ ~ (G.2 = ∅ /\ A.2 = ∅)).
Proof.
  intros g a G A Hne. rewrite (score_unclamped generated actual Hne). fold g a.
  pose proof (components_bounds g a) as (Hf & Hu & Hv).
  rewrite (weighted_sum_zero _ _ _ Hf Hu Hv).
  unfold func_component, var_component. fold G A.
  now rewrite !jaccard_zero_iff.
Qed.

Lemma score_zero_iff_witness :
  ~ (PyStr.strip Samples.plain_text = EmptyString
     /\ PyStr.strip EmptyString = EmptyString)
  /\ ~ (score_patch_similarity Samples.plain_text EmptyString == 0)%Q.
Proof.
  assert (H : ~ (PyStr.strip Samples.plain_text = EmptyString
                 /\ PyStr.strip EmptyString = EmptyString)).
  { intros [E _]. vm_compute in E. congruence. }
  split; [exact H|]. intros E.
  apply (proj1 (score_zero_iff Samples.plain_text EmptyString H)) in E.
  destruct E as (_ & (_ & E) & _). apply E. split; reflexivity.
Defined.

(** Only the trimmed texts count. *)
Theorem score_of_trimmed (generated actual : string) :
  score_patch_similarity (PyStr.strip generated) (PyStr.strip actual)
  = score_patch_similarity generated actual.
Proof. unfold score_patch_similarity. now rewrite !strip_idem. Qed.

Lemma score_bounds (generated actual : string) :
  (0 <= score_patch_similarity generated actual <= 1)%Q.
Proof.
  unfold score_patch_similarity.
  destruct (negb _ && negb _); [split; discriminate|apply clamp01_bounds].
Qed.

Lemma sum_bounds (scores : list Q) (acc : Q) :
  Forall (fun x => 0 <= x <= 1)%Q scores ->
  (acc <= foldl Qplus acc scores
   /\ foldl Qplus acc scores <= acc + of_nat (length scores))%Q.
Proof.
  revert acc; induction scores as [|x l IH]; intros acc H.
  - cbn [foldl length]. change (of_nat 0) with 0%Q. split; lra.
  - inversion H as [|? ? Hx Hl]; subst. cbn [foldl].
    destruct (IH (acc + x)%Q Hl) as [H1 H2].
    assert (E : (of_nat (length (x :: l)) == of_nat (length l) + 1)%Q).
    { unfold of_nat. cbn [length]. rewrite Nat2Z.inj_succ. unfold Z.succ.
      rewrite inject_Z_plus. reflexivity. }
    rewrite E. split; lra.
Qed.

(** The combined score of a run is the mean of the scores of its cases; it
    lies in [0, 1], and it is 0.0 for a run without any scored case. *)
Theorem combined_score_bounds (cases : list (string * string)) :
  let scores := map (fun c => score_patch_similarity c.1 c.2) cases in
  (0 <= Run.combined_score scores <= 1)%Q
  /\ (cases = [] -> Run.combined_score scores = 0%Q).
Proof.
  intros scores. split; [|now intros ->].
  assert (Hall : Forall (fun x => 0 <= x <= 1)%Q scores).
  { unfold scores. apply Forall_forall. intros x Hx.
    apply list_elem_of_fmap in Hx as (c & -> & _). apply score_bounds. }
  destruct (sum_bounds scores 0 Hall) as [H1 H2].
  unfold Run.combined_score, Run.sum.
  set (n := Nat.max (length scores) 1).
  assert (Hn : n <> 0) by (unfold n; lia).
  pose proof (of_nat_pos n Hn) as Hpos.
  assert (Hle : (of_nat (length scores) <= of_nat n)%Q).
  { apply of_nat_le. unfold n. lia. }
  split.
  - apply Qle_shift_div_l; [exact Hpos|]. lra.
  - apply Qle_shift_div_r; [exact Hpos|]. lra.
Qed.

Lemma combined_score_bounds_witness :
  Run.combined_score
    (map (fun c => score_patch_similarity c.1 c.2) []) = 0%Q.
Proof. exact (proj2 (combined_score_bounds []) eq_refl). Defined.

End ScorerMore.

(** ** The parser *)

Section ParserMore.

Import Notions.

Lemma parse_lookup_sections (d p : string) :
  parse_file_hunks d !! p = hunks_of_last_section p (sections_of d).
Proof.
  rewrite parse_file_hunks_lines. unfold parse_lines, sections_of.
  rewrite store_sections, store_preamble by apply file_sections_pre.
  apply lookup_sections.
Qed.

(** The keys of the map are the paths of the file sections of the text; a
    text without any file header yields the empty map. *)
Theorem parse_file_hunks_keys (d : string) :
  dom (parse_file_hunks d) = list_to_set (section_path <$> sections_of d).
Proof.
  apply set_eq. intros p.
  rewrite elem_of_dom, parse_lookup_sections, elem_of_list_to_set, list_elem_of_fmap.
  unfold hunks_of_last_section, sections_for. rewrite fmap_is_Some. split.
  - intros [sec Hsec]. apply last_Some_elem_of in Hsec.
    apply list_elem_of_filter in Hsec as [Hp Hin]. eauto.
  - intros (sec & -> & Hin).
    assert (Hf : sec ∈ filter (fun s => section_path s = section_path sec)
                          (sections_of d))
      by now apply list_elem_of_filter.
    destruct (filter _ (sections_of d)) as [|x l] eqn:E using rev_ind.
    + inversion Hf.
    + rewrite last_snoc. eauto.
Qed.

Lemma store_fresh (lines : list string) (st : state) :
  files st = ∅ -> current_file st = None ->
  store (foldl step st lines) = parse_lines lines.
Proof.
  intros Hf Hc. unfold parse_lines.
  rewrite (store_sections lines st), (store_sections lines init). f_equal.
  pose proof (file_sections_pre lines) as Hpre.
  rewrite (store_preamble _ Hpre). unfold store.
  destruct (body_frame _ st Hpre) as [-> ->]. now rewrite Hc.
Qed.

(** Whatever comes before the first file header, hunks included, is
    dropped. *)
Theorem preamble_dropped (pre rest : list string) :
  Forall (fun ln => is_header ln = false) pre ->
  parse_lines (pre ++ rest) = parse_lines rest.
Proof.
  intros Hpre. unfold parse_lines at 1. rewrite foldl_app.
  destruct (body_frame pre init Hpre) as [Hf Hc]. now apply store_fresh.
Qed.

Lemma preamble_dropped_witness :
  parse_lines (["diff --git a/f b/f"; "@@ -1 +1 @@"; "-old"] ++ ["+++ b/f"; "+new"])
  = parse_lines ["+++ b/f"; "+new"].
Proof.
  apply preamble_dropped. repeat constructor.
Defined.

(** *** The lines of a hunk *)

Lemma cons_line_unbroken (c : ascii) (ls : list string) :
  PyStr.islinebreak c = false ->
  Forall (fun l => unbroken l = true) ls ->
  Forall (fun l => unbroken l = true) (PyStr.cons_line c ls).
Proof.
  intros Hc H. apply (cons_line_forall (fun c => negb (PyStr.islinebreak c)));
    [now rewrite Hc|exact H].
Qed.

Lemma splitlines_unbroken (s : string) :
  Forall (fun l => unbroken l = true) (PyStr.splitlines s).
Proof.
  induction s as [|c|c d s IH1 IH2] using string_ind2.
  - constructor.
  - simpl. destruct (PyStr.islinebreak c) eqn:E; repeat constructor.
    unfold unbroken. simpl. now rewrite E.
  - change (PyStr.splitlines (String c (String d s))) with
      (if PyStr.islinebreak c
       then EmptyString ::
              (if Ascii.eqb c "013" && Ascii.eqb d "010"
               then PyStr.splitlines s else PyStr.splitlines (String d s))
       else PyStr.cons_line c (PyStr.splitlines (String d s))).
    destruct (PyStr.islinebreak c) eqn:E.
    + constructor; [reflexivity|].
      destruct (Ascii.eqb c "013" && Ascii.eqb d "010"); auto.
    + now apply cons_line_unbroken.
Qed.

Lemma splitlines_line_then (l s : string) :
  l <> EmptyString -> unbroken l = true ->
  PyStr.splitlines (l +:+ LF +:+ s) = l :: PyStr.splitlines s.
Proof.
  induction l as [|c l IH]; [congruence|]. intros _ H.
  unfold unbroken in H. simpl in H. apply andb_true_iff in H as [Hc Hl].
  apply negb_true_iff in Hc. rewrite append_cons.
  destruct l as [|d l].
  - rewrite append_nil. unfold LF. rewrite append_cons, append_nil.
    cbn [PyStr.splitlines]. rewrite Hc.
    change (PyStr.islinebreak "010") with true. cbn iota.
    now destruct s.
  - rewrite append_cons.
    change (PyStr.splitlines (String c (String d (l +:+ LF +:+ s)))) with
      (if PyStr.islinebreak c
       then EmptyString ::
              (if Ascii.eqb c "013" && Ascii.eqb d "010"
               then PyStr.splitlines (l +:+ LF +:+ s)
               else PyStr.splitlines (String d (l +:+ LF +:+ s)))
       else PyStr.cons_line c (PyStr.splitlines (String d (l +:+ LF +:+ s)))).
    rewrite Hc, <- append_cons, IH; [reflexivity|congruence|exact Hl].
Qed.

Lemma splitlines_line (l : string) :
  l <> EmptyString -> unbroken l = true -> PyStr.splitlines l = [l].
Proof.
  induction l as [|c l IH]; [congruence|]. intros _ H.
  unfold unbroken in H. simpl in H. apply andb_true_iff in H as [Hc Hl].
  apply negb_true_iff in Hc. destruct l as [|d l].
  - simpl. now rewrite Hc.
  - change (PyStr.splitlines (String c (String d l))) with
      (if PyStr.islinebreak c
       then EmptyString ::
              (if Ascii.eqb c "013" && Ascii.eqb d "010"
               then PyStr.splitlines l else PyStr.splitlines (String d l))
       else PyStr.cons_line c (PyStr.splitlines (String d l))).
    rewrite Hc, IH; [reflexivity|congruence|exact Hl].
Qed.

Lemma splitlines_join_lines (ls : list string) :
  Forall (fun l => l <> EmptyString /\ unbroken l = true) ls ->
  PyStr.splitlines (PyStr.join LF ls) = ls.
Proof.
  induction ls as [|l ls IH]; intros H; [reflexivity|].
  inversion H as [|? ? [Hne Hl] Hls]; subst.
  destruct ls as [|l' ls].
  - now apply splitlines_line.
  - change (PyStr.join LF (l :: l' :: ls)) with (l +:+ LF +:+ PyStr.join LF (l' :: ls)).
    rewrite splitlines_line_then by assumption. now rewrite IH.
Qed.

(** Joining lines with a newline and splitting the text again gives the
    lines back, provided that none is empty or holds a line boundary. *)
Theorem splitlines_join (ls : list string) :
  Forall (fun l => l <> EmptyString /\ unbroken l = true) ls ->
  PyStr.splitlines (PyStr.join LF ls) = ls.
Proof. apply splitlines_join_lines. Qed.

Lemma splitlines_join_witness :
  PyStr.splitlines (PyStr.join LF ["@@ -1 +1 @@"; "+a"; " b"])
  = ["@@ -1 +1 @@"; "+a"; " b"].
Proof.
  apply splitlines_join. repeat constructor; discriminate.
Defined.

Lemma flush_from (good : string -> Prop) (hunks buf : list string) :
  Forall (joined_from good) hunks -> Forall good buf ->
  Forall (joined_from good) (flush hunks buf).
Proof.
  intros Hh Hb. destruct buf as [|l ls]; [exact Hh|].
  unfold flush. apply Forall_app; split; [exact Hh|].
  constructor; [|constructor]. exists (l :: ls). now repeat split.
Qed.

Lemma store_from (good : string -> Prop) (st : state) :
  state_from good st ->
  map_Forall (fun _ hs => Forall (joined_from good) hs) (store st).
Proof.
  intros (Hf & Hh & Hb). unfold store. destruct (current_file st); [|exact Hf].
  apply map_Forall_insert_2; [|exact Hf]. now apply flush_from.
Qed.

Lemma step_from (good : string -> Prop) (st : state) (ln : string) :
  (starts_with_header_or_body ln = true -> good ln) ->
  state_from good st -> state_from good (step st ln).
Proof.
  intros Hln Hst. pose proof (store_from good st Hst) as Hs.
  destruct Hst as (Hf & Hh & Hb).
  unfold step. destruct (Re.match_group file_header ln).
  { repeat split; simpl; try constructor. exact Hs. }
  destruct (PyStr.startswith "@@" ln) eqn:Ha.
  { repeat split; simpl; [exact Hf|now apply flush_from|].
    constructor; [|constructor]. apply Hln.
    unfold starts_with_header_or_body. now rewrite Ha. }
  destruct (bool_decide (current_file st ≠ None) && is_body_line ln) eqn:E;
    [|now repeat split].
  apply andb_true_iff in E as [_ E].
  repeat split; simpl; [exact Hf|exact Hh|].
  apply Forall_app; split; [exact Hb|]. constructor; [|constructor].
  apply Hln. unfold starts_with_header_or_body. rewrite E. apply orb_true_r.
Qed.

Lemma foldl_step_from (good : string -> Prop) (lines : list string) (st : state) :
  Forall (fun ln => starts_with_header_or_body ln = true -> good ln) lines ->
  state_from good st -> state_from good (foldl step st lines).
Proof.
  revert st; induction lines as [|ln lines IH]; intros st H Hst; [exact Hst|].
  inversion H; subst. simpl. apply IH; [assumption|]. now apply step_from.
Qed.

Lemma starts_nonempty (l : string) :
  starts_with_header_or_body l = true -> l <> EmptyString.
Proof. now destruct l. Qed.

(** The parser invents no text: every line of every hunk of the result is
    a line of the input, and it starts with [@@] or with a body marker. *)
Theorem hunk_lines_from_input (d p h l : string) (hs : list string) :
  parse_file_hunks d !! p = Some hs -> h ∈ hs -> l ∈ PyStr.splitlines h ->
  l ∈ PyStr.splitlines d /\ starts_with_header_or_body l = true.
Proof.
  rewrite parse_file_hunks_lines. unfold parse_lines. intros Hp Hh Hl.
  set (good := fun l : string =>
         l ∈ PyStr.splitlines d /\ starts_with_header_or_body l = true).
  assert (Hst : state_from good (foldl step init (PyStr.splitlines d))).
  { apply foldl_step_from.
    - apply Forall_forall. intros x Hx Hs. now split.
    - repeat split; try constructor. apply map_Forall_empty. }
  pose proof (store_from good _ Hst p hs Hp) as Hhs.
  rewrite Forall_forall in Hhs. destruct (Hhs h Hh) as (ls & _ & Hls & ->).
  rewrite splitlines_join_lines in Hl.
  - rewrite Forall_forall in Hls. now apply Hls.
  - apply Forall_forall. intros x Hx. rewrite Forall_forall in Hls.
    destruct (Hls x Hx) as [Hin Hs]. split; [now apply starts_nonempty|].
    pose proof (splitlines_unbroken d) as Hu. rewrite Forall_forall in Hu.
    now apply Hu.
Qed.

Lemma hunk_lines_from_input_witness :
  "+new" ∈ PyStr.splitlines ("+++ b/f" +:+ LF +:+ "@@ -1 +1 @@" +:+ LF +:+ "+new")
  /\ starts_with_header_or_body "+new" = true.
Proof.
  apply (hunk_lines_from_input _ "f" ("@@ -1 +1 @@" +:+ LF +:+ "+new") "+new"
           ["@@ -1 +1 @@" +:+ LF +:+ "+new"]).
  - reflexivity.
  - left.
  - right. left.
Defined.

(** *** Well-formed sections *)

Lemma step_hunk_header (st : state) (a : string) :
  PyStr.startswith "@@" a = true ->
  step st a = {| files := files st;
                 current_file := current_file st;
                 current_hunks := flush (current_hunks st) (hunk_buf st);
                 hunk_buf := [a] |}.
Proof.
  intros Ha. unfold step.
  assert (Hp : PyStr.startswith "+" a = false).
  { destruct a as [|c a']; [reflexivity|]. simpl in *.
    destruct (Ascii.eqb_spec "@" c) as [<-|]; [reflexivity|discriminate Ha]. }
  now rewrite (match_group_header_plus a Hp), Ha.
Qed.

Lemma foldl_step_body (body : list string) (st : state) :
  current_file st <> None ->
  Forall (fun l => is_body_line l = true /\ is_header l = false) body ->
  foldl step st body = {| files := files st;
                          current_file := current_file st;
                          current_hunks := current_hunks st;
                          hunk_buf := hunk_buf st ++ body |}.
Proof.
  revert st; induction body as [|l body IH]; intros st Hf H.
  - simpl. rewrite app_nil_r. now destruct st.
  - inversion H as [|? ? [Hb Hh] Hbody]; subst. simpl.
    assert (Hstep : step st l = {| files := files st;
                                   current_file := current_file st;
                                   current_hunks := current_hunks st;
                                   hunk_buf := hunk_buf st ++ [l] |}).
    { unfold step. unfold is_header in Hh. apply bool_decide_eq_false in Hh.
      destruct (Re.match_group file_header l); [destruct Hh; congruence|].
      assert (PyStr.startswith "@@" l = false) as ->.
      { destruct l as [|c l']; [reflexivity|]. unfold is_body_line in Hb. simpl in *.
        destruct (Ascii.eqb_spec "@" c) as [<-|]; [discriminate Hb|reflexivity]. }
      now rewrite Hb, bool_decide_eq_true_2. }
    rewrite Hstep, IH; [|exact Hf|exact Hbody]. simpl. now rewrite <- app_assoc.
Qed.

Lemma store_hunks (hunks : list (list string)) (st : state) (p : string) :
  current_file st = Some p ->
  Forall well_formed_hunk hunks ->
  store (foldl step st (concat hunks))
  = <[p := flush (current_hunks st) (hunk_buf st) ++ (PyStr.join LF <$> hunks)]>
      (files st).
Proof.
  revert st; induction hunks as [|hk hunks IH]; intros st Hf H.
  - simpl. unfold store. now rewrite Hf, app_nil_r.
  - inversion H as [|? ? (a & body & -> & Ha & Hbody) Hrest]; subst.
    change (concat ((a :: body) :: hunks)) with (a :: (body ++ concat hunks)).
    simpl foldl. rewrite foldl_app, (step_hunk_header st a Ha).
    rewrite (foldl_step_body body); [|simpl; now rewrite Hf|exact Hbody].
    rewrite IH; [|simpl; exact Hf|exact Hrest]. simpl. now rewrite <- app_assoc.
Qed.

(** A file header followed by well-formed hunks parses to one key, the
    path of the header, whose value holds one text per hunk: the lines of
    the hunk joined by newlines, in the order of the text. *)
Theorem well_formed_section_parsed (h : string) (hunks : list (list string)) :
  is_header h = true ->
  Forall well_formed_hunk hunks ->
  parse_lines (h :: concat hunks)
  = {[ section_path (h, []) := PyStr.join LF <$> hunks ]}.
Proof.
  intros Hh Hhunks. unfold parse_lines. simpl foldl.
  rewrite (is_header_step init h Hh).
  now rewrite (store_hunks hunks _ (section_path (h, []))).
Qed.

Lemma well_formed_section_parsed_witness :
  parse_lines ("+++ b/f" :: concat [["@@ -1 +1 @@"; "-a"; "+b"]; ["@@ -9 +9 @@"; " c"]])
  = {[ section_path ("+++ b/f", [])
       := PyStr.join LF <$> [["@@ -1 +1 @@"; "-a"; "+b"]; ["@@ -9 +9 @@"; " c"]] ]}.
Proof.
  apply well_formed_section_parsed; [reflexivity|].
  repeat constructor.
  - exists "@@ -1 +1 @@", ["-a"; "+b"]. repeat split; repeat constructor.
  - exists "@@ -9 +9 @@", [" c"]. repeat split; repeat constructor.
Defined.

End ParserMore.

(** ** The extractor *)

Section ExtractorMore.

Import Notions.

Lemma elem_of_flat_map {A B} (f : A -> list B) (l : list A) (y : B) :
  y ∈ flat_map f l <-> exists x, x ∈ l /\ y ∈ f x.
Proof.
  rewrite list_elem_of_In, in_flat_map.
  split; intros (x & Hx & Hy); exists x; now rewrite ?list_elem_of_In in *.
Qed.

Lemma run_cat_elem (r1 r2 : regex) (g : option string) (s : string)
    (y : option string * string) :
  y ∈ Re.run (r1 >> r2) g s
  <-> exists x, x ∈ Re.run r1 g s /\ y ∈ Re.run r2 x.1 x.2.
Proof. cbn [Re.run]. apply elem_of_flat_map. Qed.

Lemma run_grp_free (r : regex) :
  grp_free r = true ->
  forall g s x, x ∈ Re.run r g s -> x.1 = g.
Proof.
  induction r as [l|p|p|p|r1 IH1 r2 IH2|r IH|]; intros Hr g s x Hx;
    try discriminate.
  - cbn [Re.run] in Hx. destruct (Re.strip_prefix l s); [|inversion Hx].
    apply list_elem_of_singleton in Hx. now subst.
  - cbn [Re.run] in Hx. destruct s as [|c s]; [inversion Hx|].
    destruct (p c); [|inversion Hx].
    apply list_elem_of_singleton in Hx. now subst.
  - cbn [Re.run] in Hx. apply list_elem_of_fmap in Hx as (r & -> & _). reflexivity.
  - cbn [Re.run] in Hx. apply list_elem_of_fmap in Hx as (r & -> & _). reflexivity.
  - simpl in Hr. apply andb_true_iff in Hr as [H1 H2].
    apply run_cat_elem in Hx as (y & Hy & Hx).
    rewrite (IH2 H2 _ _ _ Hx). exact (IH1 H1 _ _ _ Hy).
  - cbn [Re.run] in Hx. destruct (Re.at_eol s); [|inversion Hx].
    apply list_elem_of_singleton in Hx. now subst.
Qed.

(** What a greedy run leaves is a suffix reached over characters of the
    class. *)
Lemma star_rests_elem (p : ascii -> bool) (s r : string) :
  r ∈ Re.star_rests p s -> exists w, str_forallb p w = true /\ s = w +:+ r.
Proof.
  induction s as [|c s IH]; simpl.
  - intros H. apply list_elem_of_singleton in H as ->. now exists EmptyString.
  - destruct (p c) eqn:E.
    + intros H. apply elem_of_app in H as [H|H].
      * destruct (IH H) as (w & Hw & ->). exists (String c w). simpl.
        now rewrite E, Hw.
      * apply list_elem_of_singleton in H as ->. now exists EmptyString.
    + intros H. apply list_elem_of_singleton in H as ->. now exists EmptyString.
Qed.

Lemma run_ident_elem (g : option string) (s : string) (x : option string * string) :
  x ∈ Re.run ident g s ->
  exists id, is_identifier id = true /\ x.1 = Some id /\ s = id +:+ x.2.
Proof.
  unfold ident. cbn [Re.run]. intros H.
  apply list_elem_of_fmap in H as (y & -> & Hy).
  apply elem_of_flat_map in Hy as (z & Hz & Hy).
  destruct s as [|c s]; [inversion Hz|].
  destruct (PyStr.isidentstart c) eqn:Hc; [|inversion Hz].
  apply list_elem_of_singleton in Hz as ->. cbn [fst snd] in Hy.
  apply list_elem_of_fmap in Hy as (r & -> & Hr).
  apply star_rests_elem in Hr as (w & Hw & ->).
  exists (String c w). cbn [fst snd]. repeat split.
  - simpl. now rewrite Hc, Hw.
  - now rewrite <- append_cons, consumed_app.
Qed.

Lemma run_ident_then (R : regex) (g : option string) (s : string)
    (x : option string * string) :
  grp_free R = true -> x ∈ Re.run (ident >> R) g s ->
  exists id, is_identifier id = true /\ x.1 = Some id.
Proof.
  intros HR Hx. apply run_cat_elem in Hx as (y & Hy & Hx).
  apply run_ident_elem in Hy as (id & Hid & Hg & _).
  exists id. split; [exact Hid|]. now rewrite (run_grp_free R HR _ _ _ Hx).
Qed.

Lemma match_group_elem (r : regex) (s name : string) :
  Re.match_group r s = Some name ->
  exists x, x ∈ Re.run r None s /\ name = default EmptyString x.1.
Proof.
  unfold Re.match_group. destruct (Re.run r None s) as [|[g rest] l]; [discriminate|].
  intros [= <-]. exists (g, rest). split; [left|reflexivity].
Qed.

Lemma pattern_def_identifier (s name : string) :
  Re.match_group pattern_def s = Some name -> is_identifier name = true.
Proof.
  intros H. apply match_group_elem in H as (x & Hx & ->). unfold pattern_def in Hx.
  apply run_cat_elem in Hx as (y1 & _ & Hx).
  apply run_cat_elem in Hx as (y2 & _ & Hx).
  apply run_cat_elem in Hx as (y3 & _ & Hx).
  apply run_ident_then in Hx as (id & Hid & ->); [exact Hid|reflexivity].
Qed.

Lemma pattern_class_identifier (s name : string) :
  Re.match_group pattern_class s = Some name -> is_identifier name = true.
Proof.
  intros H. apply match_group_elem in H as (x & Hx & ->). unfold pattern_class in Hx.
  apply run_cat_elem in Hx as (y1 & _ & Hx).
  apply run_cat_elem in Hx as (y2 & _ & Hx).
  apply run_cat_elem in Hx as (y3 & _ & Hx).
  apply run_ident_then in Hx as (id & Hid & ->); [exact Hid|reflexivity].
Qed.

Lemma pattern_assign_identifier (s name : string) :
  Re.match_group pattern_assign s = Some name -> is_identifier name = true.
Proof.
  intros H. apply match_group_elem in H as (x & Hx & ->). unfold pattern_assign in Hx.
  apply run_cat_elem in Hx as (y1 & _ & Hx).
  apply run_ident_then in Hx as (id & Hid & ->); [exact Hid|reflexivity].
Qed.

Lemma scan_line_identifiers (fv : gset string * gset string) (ln : string) :
  (forall x, x ∈ fv.1 ∪ fv.2 -> is_identifier x = true) ->
  forall x, x ∈ (scan_line fv ln).1 ∪ (scan_line fv ln).2 -> is_identifier x = true.
Proof.
  intros Hfv x. unfold scan_line.
  destruct (Re.match_group pattern_def _) as [n|] eqn:E1.
  { apply pattern_def_identifier in E1. simpl. intros Hx.
    destruct (decide (x = n)) as [->|]; [exact E1|]. apply Hfv. set_solver. }
  destruct (Re.match_group pattern_class _) as [n|] eqn:E2.
  { apply pattern_class_identifier in E2. simpl. intros Hx.
    destruct (decide (x = n)) as [->|]; [exact E2|]. apply Hfv. set_solver. }
  destruct (Re.match_group pattern_assign _) as [n|] eqn:E3; [|apply Hfv].
  apply pattern_assign_identifier in E3. simpl. intros Hx.
  destruct (decide (x = n)) as [->|]; [exact E3|]. apply Hfv. set_solver.
Qed.

Lemma extract_identifiers (hunk x : string) :
  x ∈ (extract_funcs_and_vars_from_hunk hunk).1
      ∪ (extract_funcs_and_vars_from_hunk hunk).2 ->
  is_identifier x = true.
Proof.
  unfold extract_funcs_and_vars_from_hunk.
  assert (H : forall lines fv,
    (forall x, x ∈ fv.1 ∪ fv.2 -> is_identifier x = true) ->
    forall x, x ∈ (foldl scan_line fv lines).1 ∪ (foldl scan_line fv lines).2 ->
         is_identifier x = true).
  { induction lines as [|ln lines IH]; intros fv Hfv; [exact Hfv|].
    simpl. apply IH. now apply scan_line_identifiers. }
  apply H. simpl. set_solver.
Qed.

(** Every name that the extractor records, function or variable, is an
    identifier: it opens with a character of A-Za-z_ and holds word
    characters only. *)
Theorem extracted_names_are_identifiers (hunk name : string) :
  name ∈ (extract_funcs_and_vars_from_hunk hunk).1
         ∪ (extract_funcs_and_vars_from_hunk hunk).2 ->
  is_identifier name = true.
Proof. apply extract_identifiers. Qed.

Lemma extracted_names_are_identifiers_witness :
  is_identifier "timeout" = true.
Proof.
  apply (extracted_names_are_identifiers "+    timeout = 30").
  vm_compute. reflexivity.
Defined.

Lemma size_add (x : string) (s : gset string) : size ({[x]} ∪ s) <= S (size s).
Proof.
  destruct (decide (x ∈ s)) as [Hx|Hx].
  - assert ({[x]} ∪ s = s) as -> by set_solver. lia.
  - rewrite size_union by set_solver. rewrite size_singleton. lia.
Qed.

Lemma scan_line_size (fv : gset string * gset string) (ln : string) :
  size (scan_line fv ln).1 + size (scan_line fv ln).2 <= S (size fv.1 + size fv.2).
Proof.
  unfold scan_line.
  destruct (Re.match_group pattern_def _); simpl.
  { pose proof (size_add s fv.1). lia. }
  destruct (Re.match_group pattern_class _); simpl.
  { pose proof (size_add s fv.1). lia. }
  destruct (Re.match_group pattern_assign _); simpl; [|lia].
  pose proof (size_add s fv.2). lia.
Qed.

(** At most one name is recorded per line of the hunk. *)
Theorem one_name_per_line (hunk : string) :
  size (extract_funcs_and_vars_from_hunk hunk).1
  + size (extract_funcs_and_vars_from_hunk hunk).2
  <= length (PyStr.splitlines hunk).
Proof.
  unfold extract_funcs_and_vars_from_hunk.
  assert (H : forall lines fv,
    size (foldl scan_line fv lines).1 + size (foldl scan_line fv lines).2
    <= size fv.1 + size fv.2 + length lines).
  { induction lines as [|ln lines IH]; intros fv; simpl; [lia|].
    pose proof (IH (scan_line fv ln)). pose proof (scan_line_size fv ln). lia. }
  specialize (H (PyStr.splitlines hunk) (∅, ∅)). cbn [fst snd] in H.
  rewrite size_empty in H. exact H.
Qed.

(** *** Lines that declare or assign *)

Lemma scan_line_mono_funcs (fv : gset string * gset string) (ln : string) :
  fv.1 ⊆ (scan_line fv ln).1.
Proof.
  unfold scan_line.
  destruct (Re.match_group pattern_def _); [simpl; set_solver|].
  destruct (Re.match_group pattern_class _); [simpl; set_solver|].
  now destruct (Re.match_group pattern_assign _).
Qed.

Lemma foldl_scan_line_mono_funcs (lines : list string) (fv : gset string * gset string) :
  fv.1 ⊆ (foldl scan_line fv lines).1.
Proof.
  revert fv; induction lines as [|ln lines IH]; intros fv; [done|].
  simpl. etrans; [apply (scan_line_mono_funcs fv ln)|apply IH].
Qed.

(** What one line records is found in the result for the hunk. *)
Lemma extract_line (hunk ln : string) :
  ln ∈ PyStr.splitlines hunk ->
  exists fv, (scan_line fv ln).1 ⊆ (extract_funcs_and_vars_from_hunk hunk).1
        /\ (scan_line fv ln).2 ⊆ (extract_funcs_and_vars_from_hunk hunk).2.
Proof.
  intros Hln. unfold extract_funcs_and_vars_from_hunk.
  apply list_elem_of_split in Hln as (l1 & l2 & ->).
  exists (foldl scan_line (∅, ∅) l1). rewrite foldl_app. simpl.
  split; [apply foldl_scan_line_mono_funcs|apply foldl_scan_line_mono].
Qed.

Lemma run_lit_space_nil (k : ascii) (kw : string) (R : regex) (g : option string)
    (c : ascii) (s : string) :
  PyStr.isspace k = false -> PyStr.isspace c = true ->
  Re.run (Lit (String k kw) >> R) g (String c s) = [].
Proof.
  intros Hk Hc. rewrite run_lit_cat. simpl.
  destruct (Ascii.eqb_spec k c) as [<-|]; [congruence|reflexivity].
Qed.

Lemma stops_word_after_space (ws t : string) :
  str_forallb PyStr.isspace ws = true -> stops PyStr.isword t = true ->
  stops PyStr.isword (ws +:+ t) = true.
Proof.
  destruct ws as [|c ws]; [now rewrite append_nil|]. simpl. intros H _.
  apply andb_true_iff in H as [Hc _]. now rewrite (space_not_word c Hc).
Qed.

Lemma delimiter_stops (t : string) :
  opens_with_delimiter t = true ->
  stops PyStr.isspace t = true /\ stops PyStr.isword t = true
  /\ opens_without_name t = true.
Proof.
  destruct t as [|c t]; [now repeat split|]. unfold delimiter. simpl.
  intros H. apply andb_true_iff in H as [H1 H2]. rewrite H1, H2. repeat split.
  apply negb_true_iff in H2. apply negb_true_iff.
  destruct (PyStr.isidentstart c) eqn:E; [|reflexivity].
  apply identstart_word in E. congruence.
Qed.

Lemma run_ident_cat_noname (R : regex) (g : option string) (t : string) :
  opens_without_name t = true -> Re.run (ident >> R) g t = [].
Proof.
  destruct t as [|c t]; [reflexivity|]. simpl. intros H.
  apply andb_true_iff in H as [_ H]. apply negb_true_iff in H.
  now apply run_ident_cat_nil.
Qed.

Section DefLine.

Variables ws ws1 id ws2 rest : string.
Hypothesis Hws : str_forallb PyStr.isspace ws = true.
Hypothesis Hws1 : str_forallb PyStr.isspace ws1 = true.
Hypothesis Hne : ws1 <> EmptyString.
Hypothesis Hid : is_identifier id = true.
Hypothesis Hws2 : str_forallb PyStr.isspace ws2 = true.

Lemma run_name_after_space (R : regex) (g : option string) (t : string)
    (y : option string * string) (tl : list (option string * string)) :
  stops PyStr.isword t = true ->
  Re.run R (Some id) t = y :: tl ->
  exists tl', Re.run (Plus PyStr.isspace >> ident >> R) g (ws1 +:+ id +:+ t) = y :: tl'.
Proof.
  intros Ht Hy.
  destruct (run_ident_cat_head R g id t y tl Hid Ht Hy) as [tl1 H1].
  destruct ws1 as [|c w]; [congruence|].
  simpl in Hws1. apply andb_true_iff in Hws1 as [Hc Hw].
  rewrite append_cons, run_plus_cat, Hc.
  exact (run_star_cat_head PyStr.isspace _ g w _ _ _ Hw
           (stops_space_identifier id _ Hid) H1).
Qed.

Lemma pattern_def_line :
  Re.match_group pattern_def (ws +:+ "def" +:+ ws1 +:+ id +:+ ws2 +:+ "(" +:+ rest)
  = Some id.
Proof.
  assert (H4 : exists tl, Re.run (Star PyStr.isspace >> Lit "(") (Some id)
                            (ws2 +:+ "(" +:+ rest) = (Some id, rest) :: tl).
  { eapply run_star_cat_head; [exact Hws2|reflexivity|reflexivity]. }
  destruct H4 as [tl4 H4].
  destruct (run_name_after_space _ None _ _ _
              (stops_word_after_space ws2 ("(" +:+ rest) Hws2 eq_refl) H4)
    as [tl2 H2].
  assert (H1 : Re.run (Lit "def" >> Plus PyStr.isspace >> ident
                       >> Star PyStr.isspace >> Lit "(") None
                 ("def" +:+ ws1 +:+ id +:+ ws2 +:+ "(" +:+ rest)
               = (Some id, rest) :: tl2).
  { rewrite run_lit_cat. exact H2. }
  destruct (run_star_cat_head PyStr.isspace _ None ws
              ("def" +:+ ws1 +:+ id +:+ ws2 +:+ "(" +:+ rest) _ _ Hws eq_refl H1)
    as [tl0 H0].
  exact (match_group_head _ _ _ _ _ H0).
Qed.

Lemma pattern_class_line (c : ascii) :
  Ascii.eqb c ":" || Ascii.eqb c "(" = true ->
  Re.match_group pattern_def (ws +:+ "class" +:+ ws1 +:+ id +:+ ws2 +:+ String c rest)
  = None
  /\ Re.match_group pattern_class
       (ws +:+ "class" +:+ ws1 +:+ id +:+ ws2 +:+ String c rest)
     = Some id.
Proof.
  intros Hc. split.
  - apply match_group_nil. apply run_star_cat_nil; [|exact Hws|reflexivity|].
    + intros c' s' Hc'. now apply run_lit_space_nil.
    + now rewrite run_lit_cat.
  - assert (Hcw : PyStr.isword c = false /\ PyStr.isspace c = false).
    { apply orb_true_iff in Hc as [Hc|Hc]; apply Ascii.eqb_eq in Hc; subst;
        split; reflexivity. }
    destruct Hcw as [Hcw Hcs].
    assert (H4 : exists tl,
      Re.run (Star PyStr.isspace
              >> Cls (fun c => Ascii.eqb c ":" || Ascii.eqb c "(")) (Some id)
             (ws2 +:+ String c rest) = (Some id, rest) :: tl).
    { eapply run_star_cat_head; [exact Hws2|simpl; now rewrite Hcs|].
      simpl. now rewrite Hc. }
    destruct H4 as [tl4 H4].
    assert (Hst : stops PyStr.isword (ws2 +:+ String c rest) = true).
    { apply stops_word_after_space; [exact Hws2|]. simpl. now rewrite Hcw. }
    destruct (run_name_after_space _ None _ _ _ Hst H4) as [tl2 H2].
    assert (H1 : Re.run (Lit "class" >> Plus PyStr.isspace >> ident
                         >> Star PyStr.isspace
                         >> Cls (fun c => Ascii.eqb c ":" || Ascii.eqb c "(")) None
                   ("class" +:+ ws1 +:+ id +:+ ws2 +:+ String c rest)
                 = (Some id, rest) :: tl2).
    { rewrite run_lit_cat. exact H2. }
    destruct (run_star_cat_head PyStr.isspace _ None ws
                ("class" +:+ ws1 +:+ id +:+ ws2 +:+ String c rest) _ _ Hws eq_refl H1)
      as [tl0 H0].
    exact (match_group_head _ _ _ _ _ H0).
Qed.

End DefLine.

(** A line that defines a function: optional white space, [def], white
    space, an identifier, optional white space and an opening parenthesis.
    The identifier is recorded as a function name. *)
Theorem def_line_recorded (hunk ln ws ws1 id ws2 rest : string) :
  ln ∈ PyStr.splitlines hunk ->
  content ln = ws +:+ "def" +:+ ws1 +:+ id +:+ ws2 +:+ "(" +:+ rest ->
  str_forallb PyStr.isspace ws = true ->
  str_forallb PyStr.isspace ws1 = true -> ws1 <> EmptyString ->
  is_identifier id = true ->
  str_forallb PyStr.isspace ws2 = true ->
  id ∈ (extract_funcs_and_vars_from_hunk hunk).1.
Proof.
  intros Hln Hc Hws Hws1 Hne Hid Hws2.
  destruct (extract_line hunk ln Hln) as (fv & H1 & _). apply H1.
  unfold scan_line. rewrite Hc, pattern_def_line by assumption.
  simpl. set_solver.
Qed.

Lemma def_line_recorded_witness :
  "bar" ∈ (extract_funcs_and_vars_from_hunk
              ("@@ -1 +1 @@" +:+ LF +:+ "-  def  bar (self):")).1.
Proof.
  apply (def_line_recorded _ "-  def  bar (self):" "  " "  " "bar" " " "self):").
  - assert (PyStr.splitlines ("@@ -1 +1 @@" +:+ LF +:+ "-  def  bar (self):")
            = ["@@ -1 +1 @@"; "-  def  bar (self):"]) as ->
      by (vm_compute; reflexivity).
    right. left.
  - reflexivity.
  - reflexivity.
  - reflexivity.
  - discriminate.
  - reflexivity.
  - reflexivity.
Defined.

(** A line that defines a class: optional white space, [class], white
    space, an identifier, optional white space and a colon or an opening
    parenthesis. The identifier is recorded in the same set as the function
    names. *)
Theorem class_line_recorded (hunk ln ws ws1 id ws2 rest : string) (c : ascii) :
  ln ∈ PyStr.splitlines hunk ->
  content ln = ws +:+ "class" +:+ ws1 +:+ id +:+ ws2 +:+ String c rest ->
  c = ":"%char \/ c = "("%char ->
  str_forallb PyStr.isspace ws = true ->
  str_forallb PyStr.isspace ws1 = true -> ws1 <> EmptyString ->
  is_identifier id = true ->
  str_forallb PyStr.isspace ws2 = true ->
  id ∈ (extract_funcs_and_vars_from_hunk hunk).1.
Proof.
  intros Hln Hc Hcc Hws Hws1 Hne Hid Hws2.
  assert (Hb : Ascii.eqb c ":" || Ascii.eqb c "(" = true)
    by (destruct Hcc; subst; reflexivity).
  destruct (extract_line hunk ln Hln) as (fv & H1 & _). apply H1.
  destruct (pattern_class_line ws ws1 id ws2 rest Hws Hws1 Hne Hid Hws2 c Hb)
    as [Hd Hcl].
  unfold scan_line. rewrite Hc, Hd, Hcl. simpl. set_solver.
Qed.

Lemma class_line_recorded_witness :
  "Foo" ∈ (extract_funcs_and_vars_from_hunk "+class Foo(Base):").1.
Proof.
  apply (class_line_recorded _ "+class Foo(Base):" "" " " "Foo" "" "Base):" "(").
  - assert (PyStr.splitlines "+class Foo(Base):" = ["+class Foo(Base):"]) as ->
      by (vm_compute; reflexivity).
    left.
  - reflexivity.
  - now right.
  - reflexivity.
  - reflexivity.
  - discriminate.
  - reflexivity.
  - reflexivity.
Defined.

(** *** Lines that open with a name *)

Lemma star_rests_suffix (p : ascii -> bool) (w y r : string) :
  str_forallb p w = true -> stops p y = true ->
  r ∈ Re.star_rests p (w +:+ y) ->
  exists w', str_forallb p w' = true /\ r = w' +:+ y.
Proof.
  intros Hw Hy. induction w as [|c w IH].
  - rewrite append_nil. intros Hr. exists EmptyString. split; [reflexivity|].
    destruct y as [|d y]; simpl in Hr.
    + now apply list_elem_of_singleton in Hr.
    + simpl in Hy. apply negb_true_iff in Hy. rewrite Hy in Hr.
      now apply list_elem_of_singleton in Hr.
  - simpl in Hw. apply andb_true_iff in Hw as [Hc Hw].
    rewrite append_cons. simpl. rewrite Hc. intros Hr.
    apply elem_of_app in Hr as [Hr|Hr]; [now apply IH|].
    apply list_elem_of_singleton in Hr as ->. exists (String c w). simpl.
    now rewrite Hc, Hw.
Qed.

Lemma flat_map_nil {A B} (f : A -> list B) (l : list A) :
  (forall x, x ∈ l -> f x = []) -> flat_map f l = [].
Proof.
  induction l as [|x l IH]; intros H; [reflexivity|]. simpl.
  rewrite (H x) by left. apply IH. intros y Hy. apply H. now right.
Qed.

(** The identifier pattern in front of a pattern that fails after every
    part of the name that it may capture. *)
Lemma run_ident_cat_all_nil (R : regex) (g : option string) (id y : string) :
  is_identifier id = true -> stops PyStr.isword y = true ->
  (forall w g', str_forallb PyStr.isword w = true -> Re.run R g' (w +:+ y) = []) ->
  Re.run (ident >> R) g (id +:+ y) = [].
Proof.
  intros Hid Hy HR. destruct id as [|c w]; [discriminate|].
  simpl in Hid. apply andb_true_iff in Hid as [Hc Hw].
  unfold ident. rewrite run_grp_cat, append_cons, run_cls_cat, Hc.
  apply flat_map_nil. intros x Hx. cbn [Re.run] in Hx.
  apply list_elem_of_fmap in Hx as (r & -> & Hr). cbn [snd].
  apply (star_rests_suffix _ _ _ _ Hw Hy) in Hr as (w' & Hw' & ->).
  now apply HR.
Qed.

Section NameLine.

Variables ws id ws' t : string.
Hypothesis Hws : str_forallb PyStr.isspace ws = true.
Hypothesis Hid : is_identifier id = true.
Hypothesis Hws' : str_forallb PyStr.isspace ws' = true.
Hypothesis Ht : opens_with_delimiter t = true.

Lemma stops_word_tail : stops PyStr.isword (ws' +:+ t) = true.
Proof. apply stops_word_after_space; [exact Hws'|]. now apply delimiter_stops. Qed.

Lemma run_after_keyword_tail_nil (R : regex) (g : option string) (w : string) :
  str_forallb PyStr.isword w = true ->
  Re.run (Plus PyStr.isspace >> ident >> R) g (w +:+ ws' +:+ t) = [].
Proof.
  intros Hw. destruct (delimiter_stops t Ht) as (Hs & _ & Hn).
  rewrite run_plus_cat. destruct w as [|b w].
  - rewrite append_nil. destruct ws' as [|c v].
    + rewrite append_nil. destruct t as [|d t']; [reflexivity|].
      simpl in Hs. apply negb_true_iff in Hs. now rewrite Hs.
    + rewrite append_cons. simpl in Hws'. apply andb_true_iff in Hws' as [Hc Hv].
      rewrite Hc. apply run_star_cat_nil; [|exact Hv|exact Hs|].
      * intros c' s' Hc'. apply run_ident_cat_nil. now apply space_not_identstart.
      * now apply run_ident_cat_noname.
  - rewrite append_cons. simpl in Hw. apply andb_true_iff in Hw as [Hb _].
    now rewrite (word_not_space b Hb).
Qed.

Lemma run_keyword_tail_nil (k : ascii) (kw : string) (R : regex) :
  str_forallb PyStr.isword (String k kw) = true ->
  Re.run (Star PyStr.isspace >> Lit (String k kw) >> Plus PyStr.isspace >> ident >> R)
         None (ws +:+ id +:+ ws' +:+ t) = [].
Proof.
  intros Hkw.
  apply run_star_cat_nil; auto using stops_space_identifier.
  - intros c s Hc. apply run_lit_space_nil; [|exact Hc].
    simpl in Hkw. apply andb_true_iff in Hkw as [Hk _]. now apply word_not_space.
  - rewrite run_lit_cat.
    destruct (Re.strip_prefix (String k kw) (id +:+ ws' +:+ t)) as [x|] eqn:E;
      [|reflexivity].
    apply strip_prefix_word in E as (w' & Hw' & ->);
      auto using identifier_word, stops_word_tail.
    now apply run_after_keyword_tail_nil.
Qed.

Lemma pattern_def_name_line :
  Re.match_group pattern_def (ws +:+ id +:+ ws' +:+ t) = None.
Proof. apply match_group_nil. now apply run_keyword_tail_nil. Qed.

Lemma pattern_class_name_line :
  Re.match_group pattern_class (ws +:+ id +:+ ws' +:+ t) = None.
Proof. apply match_group_nil. now apply run_keyword_tail_nil. Qed.

(** Without an equals sign after the name, the assignment pattern fails on
    every backtracking path. *)
Lemma pattern_assign_name_line :
  PyStr.startswith "=" t = false ->
  Re.match_group pattern_assign (ws +:+ id +:+ ws' +:+ t) = None.
Proof.
  intros Heq. destruct (delimiter_stops t Ht) as (Hs & _ & _).
  assert (Hlit : forall g, Re.run (Lit "=") g t = []).
  { intros g. destruct t as [|d t']; [reflexivity|]. simpl in *.
    now destruct (Ascii.eqb "=" d). }
  apply match_group_nil. unfold pattern_assign.
  apply run_star_cat_nil; auto using stops_space_identifier.
  - intros c s Hc. apply run_ident_cat_nil. now apply space_not_identstart.
  - apply run_ident_cat_all_nil; [exact Hid|exact stops_word_tail|].
    intros w g' Hw. destruct w as [|b w].
    + rewrite append_nil. apply run_star_cat_nil; [|exact Hws'|exact Hs|apply Hlit].
      intros c s Hc. simpl.
      destruct (Ascii.eqb_spec "=" c) as [<-|]; [discriminate Hc|reflexivity].
    + simpl in Hw. apply andb_true_iff in Hw as [Hb _].
      rewrite append_cons, run_star_cat_stop
        by (simpl; now rewrite (word_not_space b Hb)).
      simpl. destruct (Ascii.eqb_spec "=" b) as [<-|]; [discriminate Hb|reflexivity].
Qed.

End NameLine.

Lemma pattern_assign_line (ws id ws' rest : string) :
  str_forallb PyStr.isspace ws = true -> is_identifier id = true ->
  str_forallb PyStr.isspace ws' = true ->
  Re.match_group pattern_assign (ws +:+ id +:+ ws' +:+ "=" +:+ rest) = Some id.
Proof.
  intros Hws Hid Hws'.
  assert (H1 : exists tl, Re.run (Star PyStr.isspace >> Lit "=") (Some id)
                            (ws' +:+ "=" +:+ rest) = (Some id, rest) :: tl).
  { eapply run_star_cat_head; [exact Hws'|reflexivity|reflexivity]. }
  destruct H1 as [tl1 H1].
  assert (Hst : stops PyStr.isword (ws' +:+ "=" +:+ rest) = true)
    by now apply stops_word_after_space.
  destruct (run_ident_cat_head _ None id _ _ _ Hid Hst H1) as [tl2 H2].
  destruct (run_star_cat_head PyStr.isspace _ None ws _ _ _ Hws
              (stops_space_identifier id _ Hid) H2) as [tl3 H3].
  exact (match_group_head _ _ _ _ _ H3).
Qed.

(** A line that assigns: optional white space, an identifier, optional
    white space and an equals sign, whatever follows. The identifier is
    recorded as a variable name, the names [def] and [class] included. *)
Theorem assignment_line_recorded (hunk ln ws id ws' rest : string) :
  ln ∈ PyStr.splitlines hunk ->
  content ln = ws +:+ id +:+ ws' +:+ "=" +:+ rest ->
  str_forallb PyStr.isspace ws = true ->
  is_identifier id = true ->
  str_forallb PyStr.isspace ws' = true ->
  id ∈ (extract_funcs_and_vars_from_hunk hunk).2.
Proof.
  intros Hln Hc Hws Hid Hws'.
  destruct (extract_line hunk ln Hln) as (fv & _ & H2). apply H2.
  unfold scan_line. rewrite Hc.
  rewrite (pattern_def_name_line ws id ws' ("=" +:+ rest)) by (assumption || reflexivity).
  rewrite (pattern_class_name_line ws id ws' ("=" +:+ rest))
    by (assumption || reflexivity).
  rewrite pattern_assign_line by assumption. simpl. set_solver.
Qed.

Lemma assignment_line_recorded_witness :
  "timeout" ∈ (extract_funcs_and_vars_from_hunk "+    timeout=30,").2.
Proof.
  apply (assignment_line_recorded _ "+    timeout=30," "    " "timeout" "" "30,").
  - assert (PyStr.splitlines "+    timeout=30," = ["+    timeout=30,"]) as ->
      by (vm_compute; reflexivity).
    left.
  - reflexivity.
  - reflexivity.
  - reflexivity.
  - reflexivity.
Defined.

(** A line on which a name is followed, after optional white space, by the
    end of the line or by a character that is neither white space, nor a
    word character, nor an equals sign (attribute access, a call, an
    augmented or annotated assignment, a subscript) leaves both sets as
    they are. *)
Theorem name_without_equals_ignored
    (fv : gset string * gset string) (ln ws id ws' t : string) :
  content ln = ws +:+ id +:+ ws' +:+ t ->
  str_forallb PyStr.isspace ws = true ->
  is_identifier id = true ->
  str_forallb PyStr.isspace ws' = true ->
  opens_with_delimiter t = true ->
  PyStr.startswith "=" t = false ->
  scan_line fv ln = fv.
Proof.
  intros Hc Hws Hid Hws' Ht Heq. unfold scan_line. rewrite Hc.
  now rewrite pattern_def_name_line, pattern_class_name_line,
    pattern_assign_name_line.
Qed.

Lemma name_without_equals_ignored_witness :
  scan_line (∅, ∅) "+    self.timeout = 30" = (∅, ∅)
  /\ scan_line (∅, ∅) "+count += 1" = (∅, ∅).
Proof.
  split.
  - now apply (name_without_equals_ignored _ _ "    " "self" "" ".timeout = 30").
  - now apply (name_without_equals_ignored _ _ "" "count" " " "+= 1").
Defined.

(** A line whose content, after optional white space, is over or goes on
    with a character outside A-Za-z_ (a blank line, a comment, a decorator,
    a hunk header, a literal) leaves both sets as they are. *)
Theorem line_without_name_ignored
    (fv : gset string * gset string) (ln ws t : string) :
  content ln = ws +:+ t ->
  str_forallb PyStr.isspace ws = true ->
  opens_without_name t = true ->
  scan_line fv ln = fv.
Proof.
  intros Hc Hws Ht. unfold scan_line. rewrite Hc.
  assert (Hs : stops PyStr.isspace t = true).
  { destruct t as [|c t']; [reflexivity|]. simpl in *.
    now apply andb_true_iff in Ht as [-> _]. }
  assert (Hkw : forall (k : ascii) kw R g,
    PyStr.isidentstart k = true -> Re.run (Lit (String k kw) >> R) g t = []).
  { intros k kw R g Hk. rewrite run_lit_cat. destruct t as [|c t']; [reflexivity|].
    simpl in *. apply andb_true_iff in Ht as [_ Ht]. apply negb_true_iff in Ht.
    destruct (Ascii.eqb_spec k c) as [<-|]; [congruence|reflexivity]. }
  rewrite (match_group_nil pattern_def).
  2:{ apply run_star_cat_nil; [|exact Hws|exact Hs|now apply Hkw].
      intros c s Hc'. now apply run_lit_space_nil. }
  rewrite (match_group_nil pattern_class).
  2:{ apply run_star_cat_nil; [|exact Hws|exact Hs|now apply Hkw].
      intros c s Hc'. now apply run_lit_space_nil. }
  rewrite (match_group_nil pattern_assign); [reflexivity|].
  apply run_star_cat_nil; [|exact Hws|exact Hs|now apply run_ident_cat_noname].
  intros c s Hc'. apply run_ident_cat_nil. now apply space_not_identstart.
Qed.

Lemma line_without_name_ignored_witness :
  scan_line (∅, ∅) "+    # x = 1" = (∅, ∅)
  /\ scan_line (∅, ∅) "@@ -1,2 +1,3 @@ def f():" = (∅, ∅).
Proof.
  split.
  - now apply (line_without_name_ignored _ _ "    " "# x = 1").
  - now apply (line_without_name_ignored _ _ "" "@@ -1,2 +1,3 @@ def f():").
Defined.

(** *** The names of a whole map *)

Lemma foldl_add_hunk_elem (hs : list string) (FV : gset string * gset string) (x : string) :
  (x ∈ (foldl add_hunk FV hs).1
   <-> x ∈ FV.1 \/ exists h, h ∈ hs /\ x ∈ (extract_funcs_and_vars_from_hunk h).1)
  /\ (x ∈ (foldl add_hunk FV hs).2
      <-> x ∈ FV.2 \/ exists h, h ∈ hs /\ x ∈ (extract_funcs_and_vars_from_hunk h).2).
Proof.
  revert FV; induction hs as [|h hs IH]; intros FV.
  - simpl. split; (split; [now left|intros [H|(h & Hh & _)]; [exact H|inversion Hh]]).
  - simpl. destruct (IH (add_hunk FV h)) as [IH1 IH2]. rewrite IH1, IH2.
    unfold add_hunk. cbn [fst snd]. rewrite !elem_of_union.
    split; split.
    + intros [[H|H]|(h' & Hh' & H)]; [now left|right; exists h; split; [left|exact H]|].
      right. exists h'. split; [now right|exact H].
    + intros [H|(h' & Hh' & H)]; [now left; left|].
      apply elem_of_cons in Hh' as [->|Hh']; [now left; right|].
      right. eauto.
    + intros [[H|H]|(h' & Hh' & H)]; [now left|right; exists h; split; [left|exact H]|].
      right. exists h'. split; [now right|exact H].
    + intros [H|(h' & Hh' & H)]; [now left; left|].
      apply elem_of_cons in Hh' as [->|Hh']; [now left; right|].
      right. eauto.
Qed.

Lemma foldl_hunks_elem (L : list (list string)) (FV : gset string * gset string)
    (x : string) :
  (x ∈ (foldl (fun FV hunks => foldl add_hunk FV hunks) FV L).1
   <-> x ∈ FV.1 \/ exists hs h, hs ∈ L /\ h ∈ hs
                           /\ x ∈ (extract_funcs_and_vars_from_hunk h).1)
  /\ (x ∈ (foldl (fun FV hunks => foldl add_hunk FV hunks) FV L).2
      <-> x ∈ FV.2 \/ exists hs h, hs ∈ L /\ h ∈ hs
                              /\ x ∈ (extract_funcs_and_vars_from_hunk h).2).
Proof.
  revert FV; induction L as [|hs L IH]; intros FV.
  - simpl. split; (split; [now left|intros [H|(hs & h & Hh & _)];
                                     [exact H|inversion Hh]]).
  - simpl. destruct (IH (foldl add_hunk FV hs)) as [IH1 IH2]. rewrite IH1, IH2.
    destruct (foldl_add_hunk_elem hs FV x) as [E1 E2]. rewrite E1, E2.
    split; split.
    + intros [[H|(h & Hh & H)]|(hs' & h & Hhs & Hh & H)]; [now left| |].
      * right. exists hs, h. split; [left|now split].
      * right. exists hs', h. split; [now right|now split].
    + intros [H|(hs' & h & Hhs & Hh & H)]; [now left; left|].
      apply elem_of_cons in Hhs as [->|Hhs]; [left; right; eauto|].
      right. eauto.
    + intros [[H|(h & Hh & H)]|(hs' & h & Hhs & Hh & H)]; [now left| |].
      * right. exists hs, h. split; [left|now split].
      * right. exists hs', h. split; [now right|now split].
    + intros [H|(hs' & h & Hhs & Hh & H)]; [now left; left|].
      apply elem_of_cons in Hhs as [->|Hhs]; [left; right; eauto|].
      right. eauto.
Qed.

(** The two sets collected from a map are the unions, over every hunk of
    every file, of what the extractor finds in the hunk. *)
Theorem collect_is_union (files_map : gmap string (list string)) (x : string) :
  (x ∈ (collect_funcs_vars_from_files_map files_map).1
   <-> exists p hs h, files_map !! p = Some hs /\ h ∈ hs
                 /\ x ∈ (extract_funcs_and_vars_from_hunk h).1)
  /\ (x ∈ (collect_funcs_vars_from_files_map files_map).2
      <-> exists p hs h, files_map !! p = Some hs /\ h ∈ hs
                    /\ x ∈ (extract_funcs_and_vars_from_hunk h).2).
Proof.
  unfold collect_funcs_vars_from_files_map.
  destruct (foldl_hunks_elem ((map_to_list files_map).*2) (∅, ∅) x) as [E1 E2].
  rewrite E1, E2. cbn [fst snd].
  assert (Hin : forall hs, hs ∈ (map_to_list files_map).*2
                       <-> exists p, files_map !! p = Some hs).
  { intros hs. rewrite list_elem_of_fmap. split.
    - intros ([p hs'] & -> & H). apply elem_of_map_to_list in H. eauto.
    - intros (p & H). exists (p, hs). split; [reflexivity|].
      now apply elem_of_map_to_list. }
  split; split.
  - intros [H|(hs & h & Hhs & Hh & H)]; [set_solver|].
    apply Hin in Hhs as (p & Hp). eauto 6.
  - intros (p & hs & h & Hp & Hh & H). right. exists hs, h.
    split; [apply Hin; eauto|now split].
  - intros [H|(hs & h & Hhs & Hh & H)]; [set_solver|].
    apply Hin in Hhs as (p & Hp). eauto 6.
  - intros (p & hs & h & Hp & Hh & H). right. exists hs, h.
    split; [apply Hin; eauto|now split].
Qed.

End ExtractorMore.

(** ** Model names of Ollama *)

Section OllamaMore.

Import OllamaUtils.

Lemma startswith_strip_prefix (p s : string) :
  PyStr.startswith p s = true ->
  exists r, s = p +:+ r /\ drop_str (String.length p) s = r.
Proof.
  revert s; induction p as [|a p IH]; intros s H.
  - exists s. split; [reflexivity|now destruct s].
  - destruct s as [|b s]; [discriminate|]. simpl in H.
    destruct (Ascii.eqb_spec a b) as [<-|]; [|discriminate].
    destruct (IH s H) as (r & -> & E). exists r. split; [reflexivity|exact E].
Qed.

Lemma startswith_app_self (p r : string) : PyStr.startswith p (p +:+ r) = true.
Proof.
  induction p as [|a p IH]; [reflexivity|]. rewrite append_cons. simpl.
  now rewrite Ascii.eqb_refl.
Qed.

Lemma drop_str_app (p r : string) : drop_str (String.length p) (p +:+ r) = r.
Proof.
  induction p as [|a p IH]; [now destruct r|]. rewrite append_cons. exact IH.
Qed.

Lemma lstrip_chars_suffix (chars : ascii -> bool) (s : string) :
  exists w, s = w +:+ lstrip_chars chars s.
Proof.
  induction s as [|c s [w IH]]; [now exists EmptyString|]. simpl.
  destruct (chars c); [|now exists EmptyString].
  exists (String c w). rewrite append_cons. now rewrite <- IH.
Qed.

Lemma lstrip_chars_head (chars : ascii -> bool) (s : string) (c : ascii) (r : string) :
  lstrip_chars chars s = String c r -> chars c = false.
Proof.
  induction s as [|d s IH]; [discriminate|]. simpl.
  destruct (chars d) eqn:E; [exact IH|]. now intros [= <- _].
Qed.

Lemma lstrip_chars_id (chars : ascii -> bool) (s : string) :
  stops chars s = true -> lstrip_chars chars s = s.
Proof.
  destruct s as [|c s]; [reflexivity|]. simpl. intros H.
  apply negb_true_iff in H. now rewrite H.
Qed.

Lemma lower_startswith (p s : string) :
  PyStr.startswith p s = true -> PyStr.startswith (lower p) (lower s) = true.
Proof.
  revert s; induction p as [|a p IH]; intros s H; [reflexivity|].
  destruct s as [|b s]; [discriminate|]. simpl in *.
  destruct (Ascii.eqb_spec a b) as [<-|]; [|discriminate].
  rewrite Ascii.eqb_refl. now apply IH.
Qed.

Lemma startswith_trans (p q s : string) :
  PyStr.startswith p q = true -> PyStr.startswith q s = true ->
  PyStr.startswith p s = true.
Proof.
  revert q s; induction p as [|a p IH]; intros q s Hpq Hqs; [reflexivity|].
  destruct q as [|b q]; [discriminate|]. destruct s as [|c s]; [discriminate|].
  simpl in *. destruct (Ascii.eqb_spec a b) as [<-|]; [|discriminate].
  destruct (Ascii.eqb a c); [|discriminate]. now apply (IH q).
Qed.

(** What [strip_first] returns when a prefix of the list matches. *)
Lemma strip_first_cases (ps : list string) (name : string) :
  strip_first ps name = name
  \/ exists p r, p ∈ ps /\ name = p +:+ r
            /\ strip_first ps name = lstrip_chars separator r.
Proof.
  induction ps as [|p ps IH]; [now left|]. simpl.
  destruct (PyStr.startswith p name) eqn:E.
  - right. apply startswith_strip_prefix in E as (r & -> & ->).
    exists p, r. split; [left|]. split; reflexivity.
  - destruct IH as [IH|(q & r & Hq & Hn & Hs)]; [now left|].
    right. exists q, r. split; [now right|now split].
Qed.

(** A bare model name behind any of the four prefixes is recognised as an
    Ollama model and is given back by the normalisation, provided that it
    does not itself open with [/], [:] or a space. *)
Theorem normalize_prefixed (prefix name : string) :
  prefix ∈ prefixes -> stops separator name = true ->
  is_ollama_model_name (Some (prefix +:+ name)) = true
  /\ normalize_ollama_model_name (prefix +:+ name) = name.
Proof.
  intros Hp Hn. unfold prefixes in Hp.
  assert (Hcase : prefix = "ollama://" \/ prefix = "ollama:"
                  \/ prefix = "ollama/" \/ prefix = "ollama-").
  { repeat (apply elem_of_cons in Hp as [Hp|Hp]; [auto|]). inversion Hp. }
  assert (Hsl : PyStr.startswith "//" name = false).
  { destruct name as [|c r]; [reflexivity|]. simpl in *.
    unfold separator in Hn. destruct (Ascii.eqb_spec "/" c) as [<-|];
      [discriminate Hn|reflexivity]. }
  destruct Hcase as [-> | [-> | [-> | ->]]]; (split; [reflexivity|]);
    unfold normalize_ollama_model_name, prefixes; cbn [PyStr.nonempty negb];
    unfold strip_first.
  - rewrite (startswith_app_self "ollama://" name), drop_str_app.
    now apply lstrip_chars_id.
  - assert (PyStr.startswith "ollama://" ("ollama:" +:+ name) = false) as ->
      by exact Hsl.
    rewrite (startswith_app_self "ollama:" name), drop_str_app.
    now apply lstrip_chars_id.
  - assert (PyStr.startswith "ollama://" ("ollama/" +:+ name) = false) as ->
      by reflexivity.
    assert (PyStr.startswith "ollama:" ("ollama/" +:+ name) = false) as ->
      by reflexivity.
    rewrite (startswith_app_self "ollama/" name), drop_str_app.
    now apply lstrip_chars_id.
  - assert (PyStr.startswith "ollama://" ("ollama-" +:+ name) = false) as ->
      by reflexivity.
    assert (PyStr.startswith "ollama:" ("ollama-" +:+ name) = false) as ->
      by reflexivity.
    assert (PyStr.startswith "ollama/" ("ollama-" +:+ name) = false) as ->
      by reflexivity.
    rewrite (startswith_app_self "ollama-" name), drop_str_app.
    now apply lstrip_chars_id.
Qed.

Lemma normalize_prefixed_witness :
  is_ollama_model_name (Some ("ollama:" +:+ "gemma3:12b")) = true
  /\ normalize_ollama_model_name ("ollama:" +:+ "gemma3:12b") = "gemma3:12b".
Proof.
  apply normalize_prefixed; [right; left|reflexivity].
Defined.

(** The normalisation changes only names that [is_ollama_model_name]
    accepts; the result is then a proper suffix of the name that does not
    open with [/], [:] or a space. *)
Theorem normalize_changes_ollama_names_only (name : string) :
  normalize_ollama_model_name name <> name ->
  is_ollama_model_name (Some name) = true
  /\ (exists cut, cut <> EmptyString /\ name = cut +:+ normalize_ollama_model_name name)
  /\ stops separator (normalize_ollama_model_name name) = true.
Proof.
  unfold normalize_ollama_model_name, is_ollama_model_name.
  destruct (PyStr.nonempty name) eqn:Hne; cbn [negb]; [|intros H; now destruct H].
  intros Hch.
  destruct (strip_first_cases prefixes name) as [E|(p & r & Hp & Hn & Hs)];
    [congruence|].
  rewrite Hs. split; [|split].
  - assert (Hpre : PyStr.startswith "ollama" p = true).
    { unfold prefixes in Hp.
      repeat (apply elem_of_cons in Hp as [->|Hp]; [reflexivity|]). inversion Hp. }
    apply (lower_startswith "ollama"). apply (startswith_trans _ p); [exact Hpre|].
    rewrite Hn. apply startswith_app_self.
  - destruct (lstrip_chars_suffix separator r) as [w Hw].
    exists (p +:+ w). split.
    + unfold prefixes in Hp.
      repeat (apply elem_of_cons in Hp as [->|Hp]; [discriminate|]). inversion Hp.
    + rewrite Hn. rewrite Hw at 1. clear.
      induction p as [|a p IH]; [reflexivity|].
      rewrite !append_cons. now rewrite IH.
  - destruct (lstrip_chars separator r) as [|c t] eqn:E; [reflexivity|].
    simpl. now rewrite (lstrip_chars_head _ _ _ _ E).
Qed.

Lemma normalize_changes_ollama_names_only_witness :
  is_ollama_model_name (Some "ollama://llama3") = true
  /\ stops separator (normalize_ollama_model_name "ollama://llama3") = true.
Proof.
  assert (H : normalize_ollama_model_name "ollama://llama3" <> "ollama://llama3")
    by discriminate.
  destruct (normalize_changes_ollama_names_only _ H) as (H1 & _ & H3).
  split; [exact H1|exact H3].
Defined.

End OllamaMore.

(** ** The selection of files *)

Section SelectMore.

Import LlmHelper.

Variable json_loads : string -> option json.

Lemma keep_known_elem (all_paths : list string) (picks : list json) (x : string) :
  x ∈ keep_known all_paths picks <-> JStr x ∈ picks /\ x ∈ all_paths.
Proof.
  unfold keep_known. rewrite elem_of_flat_map. split.
  - intros (p & Hp & Hx). destruct p; try (inversion Hx; fail).
    case_bool_decide as Hs; [|inversion Hx].
    apply list_elem_of_singleton in Hx as ->. now split.
  - intros [Hp Hx]. exists (JStr x). split; [exact Hp|].
    rewrite bool_decide_eq_true_2 by exact Hx. left.
Qed.

(** Whatever the model replies, every path that is returned is one of
    [all_paths]. *)
Theorem selected_files_are_known (reply : option string) (all_paths : list string)
    (x : string) :
  x ∈ ask_llm_to_select_files json_loads reply all_paths -> x ∈ all_paths.
Proof.
  unfold ask_llm_to_select_files.
  destruct (parse_picks json_loads _) as [[]|]; auto.
  intros H. now apply keep_known_elem in H.
Qed.

Lemma keep_known_strings (all_paths picks : list string) :
  keep_known all_paths (JStr <$> picks) = filter (fun p => p ∈ all_paths) picks.
Proof.
  unfold keep_known. induction picks as [|p picks IH]; [reflexivity|].
  rewrite fmap_cons, filter_cons. cbn [flat_map]. rewrite IH.
  destruct (decide (p ∈ all_paths)) as [Hp|Hp].
  - now rewrite bool_decide_eq_true_2.
  - now rewrite bool_decide_eq_false_2.
Qed.

(** When the reply is, as it stands, a JSON array of strings, the result
    is the list of the strings of the array that are in [all_paths], in
    the order of the array, repetitions included. *)
Theorem selected_files_of_array (reply : option string) (all_paths picks : list string) :
  json_loads (PyStr.strip (default EmptyString reply)) = Some (JArr (JStr <$> picks)) ->
  ask_llm_to_select_files json_loads reply all_paths
  = filter (fun p => p ∈ all_paths) picks.
Proof.
  intros H. unfold ask_llm_to_select_files, parse_picks. rewrite H.
  apply keep_known_strings.
Qed.

End SelectMore.

Lemma selected_files_are_known_witness :
  "a.py" ∈ LlmHelper.ask_llm_to_select_files
             (fun _ => Some (LlmHelper.JArr [LlmHelper.JStr "zz"; LlmHelper.JStr "a.py"]))
             (Some "[]") ["a.py"; "b.py"]
  /\ "a.py" ∈ ["a.py"; "b.py"].
Proof.
  assert (H : "a.py" ∈ LlmHelper.ask_llm_to_select_files
                (fun _ => Some (LlmHelper.JArr [LlmHelper.JStr "zz"; LlmHelper.JStr "a.py"]))
                (Some "[]") ["a.py"; "b.py"]).
  { vm_compute. left. }
  split; [exact H|]. exact (selected_files_are_known _ _ _ _ H).
Defined.

Lemma selected_files_of_array_witness :
  LlmHelper.ask_llm_to_select_files
    (fun _ => Some (LlmHelper.JArr (LlmHelper.JStr <$> ["zz"; "a.py"])))
    (Some "[]") ["a.py"; "b.py"]
  = filter (fun p => p ∈ ["a.py"; "b.py"]) ["zz"; "a.py"].
Proof.
  apply (selected_files_of_array
           (fun _ => Some (LlmHelper.JArr (LlmHelper.JStr <$> ["zz"; "a.py"])))).
  reflexivity.
Defined.
